(** * EMOGUCHI client: emotion scoring, voice processing, player identity
      and the socket-driven game store

    A shallow embedding of the TypeScript sources

      - types/plutchikEmotions.ts       (module [PlutchikEmotions])
      - utils/plutchikScoring3Layer.ts  (module [PlutchikScoring])
      - the voice processing patterns and the emotion reversal map
                                        (module [VoiceProcessing])
      - utils/playerStorage             (module [PlayerStorage])
      - types/game                      (module [Game])
      - stores/gameStore                (module [GameStore])
      - hooks/useSocket.ts              (module [UseSocket])

    Conventions of the embedding.

      - The score arithmetic ([maxScore * 0.85], [Math.round], the running
        total of the bonus) is done on IEEE 754 doubles, Rocq's primitive
        floats ([double]).  The distances on the emotion wheel, the pitch and
        tempo values and the numbers the store holds are exact rationals
        ([number], [Q]): the quotients and sums the code forms on the emotion
        table (multiples of 45 divided by 45, halves) are exact in doubles.
      - [T | null] and optional fields are [option T]; a [throw] is the
        [Throw] constructor of [completion].
      - A [Record<string, T>] used as a lookup table is a [gmap string T]
        of its own properties.  A lookup [table[key]] in the code also finds
        the properties inherited from [Object.prototype]; the names of those
        are listed in [Object_prototype_keys], and the statements about
        arbitrary keys leave them out.  A record that is iterated
        ([Object.values]) is the list of its properties as they were created,
        keys distinct, and is read in the order of [OrdinaryOwnPropertyKeys]:
        array indices first, ascending, then the other keys as created.
      - [useSocket] reads the store through the value [useGameStore()]
        returned when the callbacks were registered; that value is an
        explicit parameter of the handlers, the live store is threaded
        through them.
      - Console logging is omitted: it has no effect on the store. *)

From Corelib Require Import PrimFloat.
From Corelib Require FloatOps SpecFloat FloatAxioms.
From Stdlib Require Import ZArith QArith Qround Qminmax Qabs String List Lia Lqa Bool.
From stdpp Require Import gmap strings list fin_maps.

#[local] Set Warnings "-inexact-float".

Local Open Scope string_scope.
Local Open Scope Q_scope.

(** ** JavaScript primitives *)

(** A JavaScript [number] in the places where the code computes exactly:
    distances on the wheel, pitch and tempo, timeouts. *)
Abbreviation number := Q.

(** The outcome of a call that may [throw new Error(msg)]. *)
Inductive completion (A : Type) : Type :=
  | Return (a : A)
  | Throw (msg : string).
Arguments Return {A} a.
Arguments Throw {A} msg.

#[global] Instance completion_ret : MRet completion := fun A a => Return a.

#[global] Instance completion_bind : MBind completion := fun A B k c =>
  match c with
  | Return a => k a
  | Throw msg => Throw msg
  end.

(** A JavaScript [number] where the code multiplies, rounds and adds
    scores: an IEEE 754 binary64 value. *)
Abbreviation double := PrimFloat.float.

Module Double.

(** The double whose value is the integer [z], for [0 <= z < 2^53]. *)
Definition ofInteger (z : Z) : double := PrimFloat.of_uint63 (Uint63Axioms.of_Z z).

(** [x <= y], [x === y] and [x + y] on doubles. *)
Definition le (x y : double) : bool := PrimFloat.leb x y.
Definition strictEq (x y : double) : bool := PrimFloat.eqb x y.
Definition add (x y : double) : double := PrimFloat.add x y.

End Double.

(** [Math.round]: the integral double closest to [x], the one closer to
    plus infinity when two are equally close; [x] itself when it is
    integral, infinite or NaN, and [-0] when [x] is [-0] or lies in
    [[-0.5, 0)].  A finite [x] is [m * 2^e] with [m] of 53 bits: it is
    integral when [e >= 0]; otherwise the result is
    [floor (x + 1/2) = floor ((2 m + 2^-e) / 2^(1-e))], computed on
    integers, of absolute value below [2^53]. *)
Definition Math_round (x : double) : double :=
  match FloatOps.Prim2SF x with
  | SpecFloat.S754_finite sign m e =>
      if (0 <=? e)%Z then x
      else
        let num := if sign then Z.neg m else Z.pos m in
        let n := Z.shiftr (Z.shiftl num 1 + Z.shiftl 1 (- e)) (1 - e) in
        if (n =? 0)%Z then (if sign then PrimFloat.neg_zero else PrimFloat.zero)
        else if (0 <? n)%Z then Double.ofInteger n
        else PrimFloat.opp (Double.ofInteger (- n))
  | _ => x
  end.

(** The names of the properties every ordinary object inherits from
    [Object.prototype]. *)
Definition Object_prototype_keys : list string :=
  ["constructor"; "__defineGetter__"; "__defineSetter__"; "hasOwnProperty";
   "__lookupGetter__"; "__lookupSetter__"; "isPrototypeOf"; "propertyIsEnumerable";
   "toString"; "valueOf"; "__proto__"; "toLocaleString"].

(** *** The order of the own properties of an object *)

Definition digitValue (c : Ascii.ascii) : option N :=
  let n := Ascii.N_of_ascii c in
  if (48 <=? n)%N && (n <=? 57)%N then Some (n - 48)%N else None.

Fixpoint decimalValue (s : string) (acc : N) : option N :=
  match s with
  | EmptyString => Some acc
  | String c rest =>
      match digitValue c with
      | Some d => decimalValue rest (acc * 10 + d)%N
      | None => None
      end
  end.

(** An array index: the canonical decimal form (no leading zero) of an
    integer from 0 to [2^32 - 2]. *)
Definition arrayIndex (key : string) : option N :=
  match key with
  | EmptyString => None
  | String c rest =>
      if (Ascii.N_of_ascii c =? 48)%N && negb (String.eqb rest EmptyString) then None
      else
        match decimalValue key 0 with
        | Some n => if (n <? 4294967295)%N then Some n else None
        | None => None
        end
  end.

Fixpoint insertByIndex {A : Type} (n : N) (a : A) (sorted : list (N * A)) : list (N * A) :=
  match sorted with
  | [] => [(n, a)]
  | (m, b) :: rest =>
      if (n <? m)%N then (n, a) :: (m, b) :: rest
      else (m, b) :: insertByIndex n a rest
  end.

Definition sortByIndex {A : Type} (l : list (N * A)) : list (N * A) :=
  List.fold_right (fun na sorted => insertByIndex (fst na) (snd na) sorted) [] l.

(** [OrdinaryOwnPropertyKeys] on string keys: the array indices in ascending
    order, then the other keys in the order of their creation. *)
Definition ownProperties {A : Type} (record : list (string * A)) : list (string * A) :=
  let indexed :=
    List.flat_map (fun kv => match arrayIndex (fst kv) with
                             | Some n => [(n, kv)]
                             | None => []
                             end) record in
  let named :=
    List.filter (fun kv => match arrayIndex (fst kv) with
                           | Some _ => false
                           | None => true
                           end) record in
  (List.map snd (sortByIndex indexed) ++ named)%list.

Definition Math_abs (x : number) : number := Qabs x.

Definition Math_min (x y : number) : number := Qmin x y.

(** Strict equality [===] on numbers. *)
Definition num_eqb (x y : number) : bool := Qeq_bool x y.

(** Truthiness of a string ([""] is falsy) and of a number ([0] is falsy). *)
Definition truthy_string (s : string) : bool := negb (String.eqb s "").

Definition truthy_number (n : number) : bool := negb (num_eqb n 0).

(** [a || b] on possibly-undefined strings. *)
Definition or_string (a b : option string) : option string :=
  match a with
  | Some s => if truthy_string s then Some s else b
  | None => b
  end.

(** ** frontend/types/plutchikEmotions.ts *)

Module PlutchikEmotions.

Inductive IntensityLevel : Type := weak | medium | strong.

Definition IntensityLevel_eqb (a b : IntensityLevel) : bool :=
  match a, b with
  | weak, weak | medium, medium | strong, strong => true
  | _, _ => false
  end.

Record PlutchikEmotion : Type := {
  id : string;
  axis : string;
  intensity : IntensityLevel;
  nameJa : string;
  nameEn : string;
  color : string;
  angle : number;
  emoji : string
}.

Definition mk (i a : string) (l : IntensityLevel) (ja en c : string)
    (ang : number) (e : string) : PlutchikEmotion :=
  {| id := i; axis := a; intensity := l; nameJa := ja; nameEn := en;
     color := c; angle := ang; emoji := e |}.

(** 24 emotions with 3 intensity levels for each of the 8 basic axes. *)
Definition PLUTCHIK_EMOTIONS_3_LAYER : list PlutchikEmotion := [
  mk "joy_strong" "joy" strong "陶酔" "Ecstasy" "#FFD700" 0 "🤩";
  mk "joy_medium" "joy" medium "喜び" "Joy" "#FFE55C" 0 "😊";
  mk "joy_weak" "joy" weak "平穏" "Serenity" "#FFF2B8" 0 "😌";
  mk "trust_strong" "trust" strong "敬愛" "Admiration" "#32CD32" 45 "🤝";
  mk "trust_medium" "trust" medium "信頼" "Trust" "#90EE90" 45 "😊";
  mk "trust_weak" "trust" weak "容認" "Acceptance" "#C8F7C5" 45 "🙂";
  mk "fear_strong" "fear" strong "恐怖" "Terror" "#800080" 90 "😱";
  mk "fear_medium" "fear" medium "恐れ" "Fear" "#9370DB" 90 "😰";
  mk "fear_weak" "fear" weak "不安" "Apprehension" "#C8A2C8" 90 "😟";
  mk "surprise_strong" "surprise" strong "驚嘆" "Amazement" "#1E90FF" 135 "😱";
  mk "surprise_medium" "surprise" medium "驚き" "Surprise" "#87CEEB" 135 "😲";
  mk "surprise_weak" "surprise" weak "放心" "Distraction" "#B6E2FF" 135 "😐";
  mk "sadness_strong" "sadness" strong "悲嘆" "Grief" "#000080" 180 "😭";
  mk "sadness_medium" "sadness" medium "悲しみ" "Sadness" "#4169E1" 180 "😢";
  mk "sadness_weak" "sadness" weak "哀愁" "Pensiveness" "#87CEEB" 180 "😔";
  mk "disgust_strong" "disgust" strong "強い嫌悪" "Loathing" "#654321" 225 "🤮";
  mk "disgust_medium" "disgust" medium "嫌悪" "Disgust" "#8B4513" 225 "🤢";
  mk "disgust_weak" "disgust" weak "うんざり" "Boredom" "#D2B48C" 225 "😒";
  mk "anger_strong" "anger" strong "激怒" "Rage" "#DC143C" 270 "😡";
  mk "anger_medium" "anger" medium "怒り" "Anger" "#FF4500" 270 "😠";
  mk "anger_weak" "anger" weak "苛立ち" "Annoyance" "#FF8C69" 270 "😤";
  mk "anticipation_strong" "anticipation" strong "攻撃" "Vigilance" "#FF8C00" 315 "👁️";
  mk "anticipation_medium" "anticipation" medium "期待" "Anticipation" "#FFA500" 315 "🤔";
  mk "anticipation_weak" "anticipation" weak "関心" "Interest" "#FFCC99" 315 "🧐"
].

(** [Array.prototype.find]: the first element satisfying the predicate. *)
Definition getEmotionById (i : string) : option PlutchikEmotion :=
  List.find (fun emotion => String.eqb (id emotion) i) PLUTCHIK_EMOTIONS_3_LAYER.

Definition getEmotionsByAxis (a : string) : list PlutchikEmotion :=
  List.filter (fun emotion => String.eqb (axis emotion) a) PLUTCHIK_EMOTIONS_3_LAYER.

Definition getIntensityLevels : list IntensityLevel := [weak; medium; strong].

(** [Array.prototype.indexOf], [-1] when the element is absent. *)
Fixpoint indexOfFrom (l : list IntensityLevel) (x : IntensityLevel) (i : Z) : Z :=
  match l with
  | [] => (-1)%Z
  | y :: rest => if IntensityLevel_eqb y x then i else indexOfFrom rest x (i + 1)%Z
  end.

Definition indexOf (l : list IntensityLevel) (x : IntensityLevel) : number :=
  inject_Z (indexOfFrom l x 0).

(** The axis part of [calculateEmotionDistance]: the angle between the two
    emotions on the wheel, converted to the 0-4 scale. *)
Definition angleAxisDistance (emotion1 emotion2 : PlutchikEmotion) : number :=
  let angle1 := angle emotion1 in
  let angle2 := angle emotion2 in
  let angleDiff := Math_abs (angle1 - angle2) in
  Math_min angleDiff (360 - angleDiff) / 45.

(** Distance between two emotions considering both axis and intensity. *)
Definition calculateEmotionDistance (emotion1 emotion2 : PlutchikEmotion) : number :=
  let axisDistance := angleAxisDistance emotion1 emotion2 in
  let intensityLevels := [weak; medium; strong] in
  let intensity1Index := indexOf intensityLevels (intensity emotion1) in
  let intensity2Index := indexOf intensityLevels (intensity emotion2) in
  let intensityDistance := Math_abs (intensity1Index - intensity2Index) in
  axisDistance + intensityDistance * 0.5.

Definition getEmotionsByIntensity (l : IntensityLevel) : list PlutchikEmotion :=
  List.filter (fun emotion => IntensityLevel_eqb (intensity emotion) l) PLUTCHIK_EMOTIONS_3_LAYER.

(** [Array.from(new Set(xs))]: the first occurrence of every element, in
    order; [seen] holds the elements already in the set. *)
Fixpoint uniqueInOrder (seen xs : list string) : list string :=
  match xs with
  | [] => []
  | x :: rest =>
      if existsb (String.eqb x) seen then uniqueInOrder seen rest
      else x :: uniqueInOrder (x :: seen) rest
  end.

Definition getAxes : list string :=
  uniqueInOrder [] (List.map axis PLUTCHIK_EMOTIONS_3_LAYER).

End PlutchikEmotions.

(** ** frontend/utils/plutchikScoring3Layer.ts *)

Module PlutchikScoring.
Import PlutchikEmotions.

Inductive Relationship : Type :=
  | rel_exact | same_axis | adjacent_axis | opposite_axis | distant_axis.

Inductive IntensityMatch : Type := im_exact | im_close | im_far.

Record PlutchikScoringResult3Layer : Type := {
  score : double;
  axisDistance : number;
  intensityDistance : number;
  totalDistance : number;
  relationship : Relationship;
  intensityMatch : IntensityMatch;
  maxScore : double
}.

(** Emotion axis positions on the wheel (0-7). *)
Definition AXIS_POSITIONS : gmap string Q :=
  <["joy" := 0]> (<["trust" := 1]> (<["fear" := 2]> (<["surprise" := 3]>
  (<["sadness" := 4]> (<["disgust" := 5]> (<["anger" := 6]>
  (<["anticipation" := 7]> ∅))))))).

Definition INTENSITY_VALUES (l : IntensityLevel) : number :=
  match l with
  | weak => 0
  | medium => 1
  | strong => 2
  end.

(** [AXIS_POSITIONS[axis]] is read as the own property of that name:
    [undefined] for every string that is neither an axis nor one of
    [Object_prototype_keys]. *)
Definition calculateAxisDistance (axis1 axis2 : string) : completion number :=
  match AXIS_POSITIONS !! axis1, AXIS_POSITIONS !! axis2 with
  | Some pos1, Some pos2 =>
      if num_eqb pos1 pos2 then Return 0
      else
        let directDistance := Math_abs (pos1 - pos2) in
        let circularDistance := 8 - directDistance in
        Return (Math_min directDistance circularDistance)
  | _, _ => Throw ("Invalid axis: " +:+ axis1 +:+ ", " +:+ axis2)
  end.

Definition calculateIntensityDistance (intensity1 intensity2 : IntensityLevel) : number :=
  let val1 := INTENSITY_VALUES intensity1 in
  let val2 := INTENSITY_VALUES intensity2 in
  Math_abs (val1 - val2).

Definition getAxisRelationship (axis1 axis2 : string) : completion Relationship :=
  if String.eqb axis1 axis2 then Return same_axis
  else
    distance ← calculateAxisDistance axis1 axis2;
    if num_eqb distance 1 then Return adjacent_axis
    else if num_eqb distance 4 then Return opposite_axis
    else if num_eqb distance 2 || num_eqb distance 3 then Return distant_axis
    else Return distant_axis.

Definition getIntensityMatch (intensity1 intensity2 : IntensityLevel) : IntensityMatch :=
  let distance := calculateIntensityDistance intensity1 intensity2 in
  if num_eqb distance 0 then im_exact
  else if num_eqb distance 1 then im_close
  else if num_eqb distance 2 then im_far
  else im_far.

(** The nested [switch] of [calculatePlutchikScore3Layer]; [score] starts
    at [0] and keeps that value where no [case] assigns it. *)
Definition baseScore (rel : Relationship) (im : IntensityMatch) (maxScore : double) : double :=
  match rel with
  | same_axis =>
      match im with
      | im_close => Math_round (maxScore * 0.85)%float
      | im_far => Math_round (maxScore * 0.70)%float
      | im_exact => 0%float
      end
  | adjacent_axis =>
      match im with
      | im_exact => Math_round (maxScore * 0.60)%float
      | im_close => Math_round (maxScore * 0.45)%float
      | im_far => Math_round (maxScore * 0.30)%float
      end
  | opposite_axis =>
      match im with
      | im_exact => Math_round (maxScore * 0.10)%float
      | im_close => Math_round (maxScore * 0.05)%float
      | im_far => 0%float
      end
  | distant_axis =>
      match im with
      | im_exact => Math_round (maxScore * 0.25)%float
      | im_close => Math_round (maxScore * 0.15)%float
      | im_far => Math_round (maxScore * 0.05)%float
      end
  | rel_exact => 0%float
  end.

Definition calculatePlutchikScore3Layer
    (correctEmotionId guessedEmotionId : string) (maxScore : double)
    : completion PlutchikScoringResult3Layer :=
  match getEmotionById correctEmotionId, getEmotionById guessedEmotionId with
  | Some correctEmotion, Some guessedEmotion =>
      if String.eqb correctEmotionId guessedEmotionId then
        Return {| score := maxScore; axisDistance := 0; intensityDistance := 0;
                  totalDistance := 0; relationship := rel_exact;
                  intensityMatch := im_exact; maxScore := maxScore |}
      else
        axisDistance ← calculateAxisDistance (axis correctEmotion) (axis guessedEmotion);
        let intensityDistance :=
          calculateIntensityDistance (intensity correctEmotion) (intensity guessedEmotion) in
        let totalDistance := calculateEmotionDistance correctEmotion guessedEmotion in
        relationship ← getAxisRelationship (axis correctEmotion) (axis guessedEmotion);
        let intensityMatch :=
          getIntensityMatch (intensity correctEmotion) (intensity guessedEmotion) in
        let score := baseScore relationship intensityMatch maxScore in
        Return {| score := score; axisDistance := axisDistance;
                  intensityDistance := intensityDistance;
                  totalDistance := totalDistance; relationship := relationship;
                  intensityMatch := intensityMatch; maxScore := maxScore |}
  | _, _ =>
      Throw ("Invalid emotion IDs: " +:+ correctEmotionId +:+ ", " +:+ guessedEmotionId)
  end.

(** Default values of the optional parameters. *)
Definition defaultMaxScore : double := 100%float.
Definition defaultBasePoints : double := 10%float.

(** [Object.values] of a record: the values of its own properties, in the
    order of [ownProperties]. *)
Definition Object_values (votes : list (string * string)) : list string :=
  List.map snd (ownProperties votes).

(** The [for ... of] loop of [calculateSpeakerBonus3Layer], with the
    accumulator [totalBonus] passed along. *)
Fixpoint speakerBonusLoop (correctEmotionId : string) (values : list string)
    (basePoints totalBonus : double) : completion double :=
  match values with
  | [] => Return totalBonus
  | vote :: rest =>
      result ← calculatePlutchikScore3Layer correctEmotionId vote basePoints;
      speakerBonusLoop correctEmotionId rest basePoints (Double.add totalBonus (score result))
  end.

Definition calculateSpeakerBonus3Layer (correctEmotionId : string)
    (votes : list (string * string)) (basePoints : double) : completion double :=
  speakerBonusLoop correctEmotionId (Object_values votes) basePoints 0%float.

(** Helper function to get scoring explanation. *)
Definition getScoreExplanation (result : PlutchikScoringResult3Layer) : string :=
  match relationship result with
  | rel_exact => "完全一致！"
  | rel =>
      let explanation :=
        match rel with
        | same_axis => "同じ感情軸"
        | adjacent_axis => "隣接する感情軸"
        | opposite_axis => "対極の感情軸"
        | distant_axis => "離れた感情軸"
        | rel_exact => ""
        end in
      explanation +:+
        match intensityMatch result with
        | im_exact => "、同じ強度"
        | im_close => "、近い強度"
        | im_far => "、離れた強度"
        end
  end.

End PlutchikScoring.

(** ** Voice processing patterns (hard mode) *)

Module VoiceProcessing.

Inductive VoiceProcessingPattern : Type :=
  | fast_high | slow_low | pitch_up | tempo_up | emotion_reverse.

Definition VoiceProcessingPattern_eqb (a b : VoiceProcessingPattern) : bool :=
  match a, b with
  | fast_high, fast_high | slow_low, slow_low | pitch_up, pitch_up
  | tempo_up, tempo_up | emotion_reverse, emotion_reverse => true
  | _, _ => false
  end.

Record VoiceProcessingConfig : Type := {
  pattern : VoiceProcessingPattern;
  pitch : number;
  tempo : number;
  description : string
}.

(** The record is only read through [Object.values]: its entries in
    insertion order. *)
Definition VOICE_PROCESSING_PATTERNS : list (VoiceProcessingPattern * VoiceProcessingConfig) := [
  (fast_high, {| pattern := fast_high; pitch := 2; tempo := 1.5;
                 description := "高速・高ピッチ（興奮・喜びの印象）" |});
  (slow_low, {| pattern := slow_low; pitch := -3; tempo := 0.8;
                description := "低速・低ピッチ（落ち着いた・暗い印象）" |});
  (pitch_up, {| pattern := pitch_up; pitch := 3; tempo := 1;
                description := "ピッチ上昇（可愛さ・軽快さ）" |});
  (tempo_up, {| pattern := tempo_up; pitch := 0; tempo := 1.5;
                description := "テンポ上昇（緊張・焦り・興奮感）" |});
  (emotion_reverse, {| pattern := emotion_reverse; pitch := 0; tempo := 1;
                       description := "感情逆転変換（反対感情の音声特徴を模倣）" |})
].

Record Reversal : Type := { rev_pitch : number; rev_tempo : number }.

Definition EMOTION_REVERSAL_ENTRIES : list (string * Reversal) := [
  (* Joy -> Sadness *)
  ("joy", {| rev_pitch := -3; rev_tempo := 0.8 |});
  ("joy_strong", {| rev_pitch := -3; rev_tempo := 0.8 |});
  ("joy_medium", {| rev_pitch := -3; rev_tempo := 0.8 |});
  ("joy_weak", {| rev_pitch := -3; rev_tempo := 0.8 |});
  (* Anger -> Fear *)
  ("anger", {| rev_pitch := -2; rev_tempo := 0.85 |});
  ("anger_strong", {| rev_pitch := -2; rev_tempo := 0.85 |});
  ("anger_medium", {| rev_pitch := -2; rev_tempo := 0.85 |});
  ("anger_weak", {| rev_pitch := -2; rev_tempo := 0.85 |});
  (* Trust -> Disgust *)
  ("trust", {| rev_pitch := -1.5; rev_tempo := 0.9 |});
  ("trust_strong", {| rev_pitch := -1.5; rev_tempo := 0.9 |});
  ("trust_medium", {| rev_pitch := -1.5; rev_tempo := 0.9 |});
  ("trust_weak", {| rev_pitch := -1.5; rev_tempo := 0.9 |});
  (* Anticipation -> Surprise *)
  ("anticipation", {| rev_pitch := 2; rev_tempo := 1.4 |});
  ("anticipation_strong", {| rev_pitch := 2; rev_tempo := 1.4 |});
  ("anticipation_medium", {| rev_pitch := 2; rev_tempo := 1.4 |});
  ("anticipation_weak", {| rev_pitch := 2; rev_tempo := 1.4 |});
  (* Fear -> Anger *)
  ("fear", {| rev_pitch := 2; rev_tempo := 1.6 |});
  ("fear_strong", {| rev_pitch := 2; rev_tempo := 1.6 |});
  ("fear_medium", {| rev_pitch := 2; rev_tempo := 1.6 |});
  ("fear_weak", {| rev_pitch := 2; rev_tempo := 1.6 |});
  (* Sadness -> Joy *)
  ("sadness", {| rev_pitch := 3; rev_tempo := 1.4 |});
  ("sadness_strong", {| rev_pitch := 3; rev_tempo := 1.4 |});
  ("sadness_medium", {| rev_pitch := 3; rev_tempo := 1.4 |});
  ("sadness_weak", {| rev_pitch := 3; rev_tempo := 1.4 |});
  (* Disgust -> Trust *)
  ("disgust", {| rev_pitch := 2; rev_tempo := 1.2 |});
  ("disgust_strong", {| rev_pitch := 2; rev_tempo := 1.2 |});
  ("disgust_medium", {| rev_pitch := 2; rev_tempo := 1.2 |});
  ("disgust_weak", {| rev_pitch := 2; rev_tempo := 1.2 |});
  (* Surprise -> Anticipation *)
  ("surprise", {| rev_pitch := -1; rev_tempo := 0.9 |});
  ("surprise_strong", {| rev_pitch := -1; rev_tempo := 0.9 |});
  ("surprise_medium", {| rev_pitch := -1; rev_tempo := 0.9 |});
  ("surprise_weak", {| rev_pitch := -1; rev_tempo := 0.9 |})
].

(** Plutchik emotion reversal mapping. *)
Definition EMOTION_REVERSAL_MAP : gmap string Reversal :=
  list_to_map EMOTION_REVERSAL_ENTRIES.

(** [patterns[i]] for a JavaScript number [i]: [undefined] ([None]) when
    [i] is not an index of the array. *)
Definition array_get {A : Type} (l : list A) (i : Z) : option A :=
  if (i <? 0)%Z then None else nth_error l (Z.to_nat i).

Definition Math_floor (x : number) : Z := Qfloor x.

(** [random] is the value [Math.random()] returns, in [0, 1).
    [EMOTION_REVERSAL_MAP[emotionId]] is read as the own property of that
    name: [undefined] for every string that is neither a key of the map nor
    one of [Object_prototype_keys]. *)
Definition getVoiceProcessingForEmotion (random : number) (emotionId : string)
    : option VoiceProcessingConfig :=
  match EMOTION_REVERSAL_MAP !! emotionId with
  | Some reversal =>
      Some {| pattern := emotion_reverse;
              pitch := rev_pitch reversal;
              tempo := rev_tempo reversal;
              description := "感情逆転変換（" +:+ emotionId +:+ " → 反対感情）" |}
  | None =>
      (* Fallback to a random pattern if emotion not found *)
      let patterns :=
        List.filter (fun p => negb (VoiceProcessingPattern_eqb (pattern p) emotion_reverse))
                    (List.map snd VOICE_PROCESSING_PATTERNS) in
      array_get patterns (Math_floor (random * inject_Z (Z.of_nat (length patterns))))
  end.

Definition getRandomVoiceProcessingPattern (random : number) : option VoiceProcessingConfig :=
  let patterns := List.map snd VOICE_PROCESSING_PATTERNS in
  array_get patterns (Math_floor (random * inject_Z (Z.of_nat (length patterns)))).

End VoiceProcessing.

(** ** utils/playerStorage.ts *)

Module PlayerStorage.

(** The part of the JavaScript environment the module touches:
    whether [window] is defined, the contents of [localStorage], and
    [crypto.randomUUID], whose successive results are [uuids 0],
    [uuids 1], ... with [drawn] of them already handed out. *)
Record Env : Type := {
  hasWindow : bool;
  localStorage : gmap string string;
  uuids : nat -> string;
  drawn : nat
}.

Definition PLAYER_ID_KEY : string := "emoguchi_player_id".
Definition PLAYER_NAME_KEY : string := "emoguchi_player_name".

Definition crypto_randomUUID (env : Env) : string * Env :=
  (uuids env (drawn env),
   {| hasWindow := hasWindow env; localStorage := localStorage env;
      uuids := uuids env; drawn := S (drawn env) |}).

Definition localStorage_getItem (env : Env) (key : string) : option string :=
  localStorage env !! key.

Definition localStorage_setItem (env : Env) (key value : string) : Env :=
  {| hasWindow := hasWindow env; localStorage := <[key := value]> (localStorage env);
     uuids := uuids env; drawn := drawn env |}.

Definition localStorage_removeItem (env : Env) (key : string) : Env :=
  {| hasWindow := hasWindow env; localStorage := delete key (localStorage env);
     uuids := uuids env; drawn := drawn env |}.

Definition createAndStore (env : Env) : string * Env :=
  let '(playerId, env1) := crypto_randomUUID env in
  (playerId, localStorage_setItem env1 PLAYER_ID_KEY playerId).

(** The saved player id; a new one is created when there is none. *)
Definition getOrCreatePlayerId (env : Env) : string * Env :=
  if negb (hasWindow env) then crypto_randomUUID env
  else
    match localStorage_getItem env PLAYER_ID_KEY with
    | Some playerId =>
        if truthy_string playerId then (playerId, env) else createAndStore env
    | None => createAndStore env
    end.

Definition getPlayerId (env : Env) : option string :=
  if negb (hasWindow env) then None else localStorage_getItem env PLAYER_ID_KEY.

Definition savePlayerName (name : string) (env : Env) : Env :=
  if negb (hasWindow env) then env else localStorage_setItem env PLAYER_NAME_KEY name.

Definition getSavedPlayerName (env : Env) : option string :=
  if negb (hasWindow env) then None else localStorage_getItem env PLAYER_NAME_KEY.

Definition clearPlayerInfo (env : Env) : Env :=
  if negb (hasWindow env) then env
  else localStorage_removeItem (localStorage_removeItem env PLAYER_ID_KEY) PLAYER_NAME_KEY.

End PlayerStorage.

(** ** utils/api.ts and the socket client's URL *)

Module Api.

(** [window.location], as far as it is read. *)
Record Location : Type := { protocol : string; hostname : string }.

(** [process.env.NEXT_PUBLIC_API_URL] and [window] ([None] when
    [typeof window === 'undefined']). *)
Record Env : Type := {
  NEXT_PUBLIC_API_URL : option string;
  window : option Location
}.

Definition developmentDefault : string := "http://localhost:8000".

Definition dynamicUrl (env : Env) : string :=
  match window env with
  | Some location =>
      if negb (String.eqb (hostname location) "localhost")
         && negb (String.eqb (hostname location) "127.0.0.1")
      then protocol location +:+ "//" +:+ hostname location +:+ ":8000"
      else developmentDefault
  | None => developmentDefault
  end.

Definition getApiUrl (env : Env) : string :=
  match NEXT_PUBLIC_API_URL env with
  | Some url => if truthy_string url then url else dynamicUrl env
  | None => dynamicUrl env
  end.

(** The default [url] of [new SocketClient()]. *)
Definition socketClientUrl (env : Env) : string :=
  match window env with
  | Some _ => getApiUrl env
  | None => "http://localhost:8000"
  end.

End Api.

(** ** types/game.ts *)

Module Game.

Inductive GameMode : Type := basic | advanced | wheel.
Inductive VoteType : Type := choice4 | choice8 | vote_wheel.
Inductive SpeakerOrder : Type := random | sequential.
Inductive GamePhase : Type := waiting | in_round | result | closed.

Definition GamePhase_eqb (a b : GamePhase) : bool :=
  match a, b with
  | waiting, waiting | in_round, in_round | result, result | closed, closed => true
  | _, _ => false
  end.

Record RoomConfig : Type := {
  mode : GameMode;
  vote_type : VoteType;
  speaker_order : SpeakerOrder;
  vote_timeout : number;
  max_rounds : number;
  hard_mode : option bool
}.

Record PlayerInfo : Type := { name : string; score : number }.

(** [(PlayerInfo | string)]: both formats are supported. *)
Inductive PlayerEntry : Type :=
  | player_info (p : PlayerInfo)
  | player_name (n : string).

Record RoomState : Type := {
  roomId : string;
  players : list PlayerEntry;
  phase : GamePhase;
  config : RoomConfig;
  currentSpeaker : option string
}.

(** The object spread [{ ...roomState, phase: p }]. *)
Definition with_phase (r : RoomState) (p : GamePhase) : RoomState :=
  {| roomId := roomId r; players := players r; phase := p;
     config := config r; currentSpeaker := currentSpeaker r |}.

Record EmotionChoice : Type := { choice_id : string; choice_name : string }.

Record Round : Type := {
  id : string;
  phrase : string;
  emotion_id : string;
  speaker_name : string;
  voting_choices : option (list EmotionChoice);
  wheel_mode : option bool
}.

Record RoundResult : Type := {
  round_id : string;
  correct_emotion : string;
  correctEmotionId : option string;
  result_speaker_name : string;
  scores : gmap string Q;
  votes : gmap string string;
  isGameComplete : option bool;
  completedRounds : option number;
  maxRounds : option number;
  completedCycles : option number;
  maxCycles : option number
}.

Record Ranking : Type := {
  ranking_name : string;
  ranking_score : number;
  rank : number
}.

Record GameComplete : Type := {
  isComplete : bool;
  rankings : list Ranking;
  totalRounds : number;
  totalCycles : option number;
  finalScores : option (gmap string Q)
}.

(** Client to server messages. *)
Inductive ClientMessage : Type :=
  | join_room (roomId playerName playerId : string)
  | start_round
  | submit_vote (roundId emotionId : string)
  | leave_room
  | restart_game
  | audio_send (audio : list Byte.byte).

End Game.

(** ** stores/gameStore.ts *)

Module GameStore.
Import Game.

Definition Blob : Type := list Byte.byte.

Record VoteTimer : Type := {
  startTime : option string;
  timeoutSeconds : number;
  isActive : bool
}.

Record State : Type := {
  (* Room state *)
  roomState : option RoomState;
  isConnected : bool;
  playerName : string;
  hostToken : string;
  (* Round state *)
  currentRound : option Round;
  speakerEmotion : option string;
  playerVote : option string;
  lastResult : option RoundResult;
  gameComplete : option GameComplete;
  (* Audio state *)
  audioRecording : option Blob;
  audioUrl : option string;
  recordingInProgress : bool;
  isAudioProcessed : bool;
  (* UI state *)
  isLoading : bool;
  error : option string;
  (* Vote timer state *)
  voteTimer : VoteTimer
}.

Definition initialState : State := {|
  roomState := None;
  isConnected := false;
  playerName := "";
  hostToken := "";
  currentRound := None;
  speakerEmotion := None;
  playerVote := None;
  lastResult := None;
  gameComplete := None;
  audioRecording := None;
  audioUrl := None;
  recordingInProgress := false;
  isAudioProcessed := false;
  isLoading := false;
  error := None;
  voteTimer := {| startTime := None; timeoutSeconds := 30; isActive := false |}
|}.

(** Actions.  Each is [set(partial)]: the fields of [partial] are
    replaced, all others are kept. *)

Definition setRoomState (state : RoomState) (s : State) : State :=
  {| roomState := Some state; isConnected := isConnected s; playerName := playerName s;
     hostToken := hostToken s; currentRound := currentRound s;
     speakerEmotion := speakerEmotion s; playerVote := playerVote s;
     lastResult := lastResult s; gameComplete := gameComplete s;
     audioRecording := audioRecording s; audioUrl := audioUrl s;
     recordingInProgress := recordingInProgress s; isAudioProcessed := isAudioProcessed s;
     isLoading := isLoading s; error := error s; voteTimer := voteTimer s |}.

Definition setConnected (connected : bool) (s : State) : State :=
  {| roomState := roomState s; isConnected := connected; playerName := playerName s;
     hostToken := hostToken s; currentRound := currentRound s;
     speakerEmotion := speakerEmotion s; playerVote := playerVote s;
     lastResult := lastResult s; gameComplete := gameComplete s;
     audioRecording := audioRecording s; audioUrl := audioUrl s;
     recordingInProgress := recordingInProgress s; isAudioProcessed := isAudioProcessed s;
     isLoading := isLoading s; error := error s; voteTimer := voteTimer s |}.

Definition setPlayerName (name : string) (s : State) : State :=
  {| roomState := roomState s; isConnected := isConnected s; playerName := name;
     hostToken := hostToken s; currentRound := currentRound s;
     speakerEmotion := speakerEmotion s; playerVote := playerVote s;
     lastResult := lastResult s; gameComplete := gameComplete s;
     audioRecording := audioRecording s; audioUrl := audioUrl s;
     recordingInProgress := recordingInProgress s; isAudioProcessed := isAudioProcessed s;
     isLoading := isLoading s; error := error s; voteTimer := voteTimer s |}.

Definition setHostToken (token : string) (s : State) : State :=
  {| roomState := roomState s; isConnected := isConnected s; playerName := playerName s;
     hostToken := token; currentRound := currentRound s;
     speakerEmotion := speakerEmotion s; playerVote := playerVote s;
     lastResult := lastResult s; gameComplete := gameComplete s;
     audioRecording := audioRecording s; audioUrl := audioUrl s;
     recordingInProgress := recordingInProgress s; isAudioProcessed := isAudioProcessed s;
     isLoading := isLoading s; error := error s; voteTimer := voteTimer s |}.

(** [set({ currentRound: round, playerVote: null })] *)
Definition setCurrentRound (round : option Round) (s : State) : State :=
  {| roomState := roomState s; isConnected := isConnected s; playerName := playerName s;
     hostToken := hostToken s; currentRound := round;
     speakerEmotion := speakerEmotion s; playerVote := None;
     lastResult := lastResult s; gameComplete := gameComplete s;
     audioRecording := audioRecording s; audioUrl := audioUrl s;
     recordingInProgress := recordingInProgress s; isAudioProcessed := isAudioProcessed s;
     isLoading := isLoading s; error := error s; voteTimer := voteTimer s |}.

Definition setSpeakerEmotion (emotion : option string) (s : State) : State :=
  {| roomState := roomState s; isConnected := isConnected s; playerName := playerName s;
     hostToken := hostToken s; currentRound := currentRound s;
     speakerEmotion := emotion; playerVote := playerVote s;
     lastResult := lastResult s; gameComplete := gameComplete s;
     audioRecording := audioRecording s; audioUrl := audioUrl s;
     recordingInProgress := recordingInProgress s; isAudioProcessed := isAudioProcessed s;
     isLoading := isLoading s; error := error s; voteTimer := voteTimer s |}.

Definition setPlayerVote (vote : option string) (s : State) : State :=
  {| roomState := roomState s; isConnected := isConnected s; playerName := playerName s;
     hostToken := hostToken s; currentRound := currentRound s;
     speakerEmotion := speakerEmotion s; playerVote := vote;
     lastResult := lastResult s; gameComplete := gameComplete s;
     audioRecording := audioRecording s; audioUrl := audioUrl s;
     recordingInProgress := recordingInProgress s; isAudioProcessed := isAudioProcessed s;
     isLoading := isLoading s; error := error s; voteTimer := voteTimer s |}.

Definition setLastResult (r : option RoundResult) (s : State) : State :=
  {| roomState := roomState s; isConnected := isConnected s; playerName := playerName s;
     hostToken := hostToken s; currentRound := currentRound s;
     speakerEmotion := speakerEmotion s; playerVote := playerVote s;
     lastResult := r; gameComplete := gameComplete s;
     audioRecording := audioRecording s; audioUrl := audioUrl s;
     recordingInProgress := recordingInProgress s; isAudioProcessed := isAudioProcessed s;
     isLoading := isLoading s; error := error s; voteTimer := voteTimer s |}.

Definition setGameComplete (g : option GameComplete) (s : State) : State :=
  {| roomState := roomState s; isConnected := isConnected s; playerName := playerName s;
     hostToken := hostToken s; currentRound := currentRound s;
     speakerEmotion := speakerEmotion s; playerVote := playerVote s;
     lastResult := lastResult s; gameComplete := g;
     audioRecording := audioRecording s; audioUrl := audioUrl s;
     recordingInProgress := recordingInProgress s; isAudioProcessed := isAudioProcessed s;
     isLoading := isLoading s; error := error s; voteTimer := voteTimer s |}.

Definition setAudioRecording (recording : option Blob) (s : State) : State :=
  {| roomState := roomState s; isConnected := isConnected s; playerName := playerName s;
     hostToken := hostToken s; currentRound := currentRound s;
     speakerEmotion := speakerEmotion s; playerVote := playerVote s;
     lastResult := lastResult s; gameComplete := gameComplete s;
     audioRecording := recording; audioUrl := audioUrl s;
     recordingInProgress := recordingInProgress s; isAudioProcessed := isAudioProcessed s;
     isLoading := isLoading s; error := error s; voteTimer := voteTimer s |}.

Definition setAudioUrl (url : option string) (s : State) : State :=
  {| roomState := roomState s; isConnected := isConnected s; playerName := playerName s;
     hostToken := hostToken s; currentRound := currentRound s;
     speakerEmotion := speakerEmotion s; playerVote := playerVote s;
     lastResult := lastResult s; gameComplete := gameComplete s;
     audioRecording := audioRecording s; audioUrl := url;
     recordingInProgress := recordingInProgress s; isAudioProcessed := isAudioProcessed s;
     isLoading := isLoading s; error := error s; voteTimer := voteTimer s |}.

Definition setRecordingInProgress (inProgress : bool) (s : State) : State :=
  {| roomState := roomState s; isConnected := isConnected s; playerName := playerName s;
     hostToken := hostToken s; currentRound := currentRound s;
     speakerEmotion := speakerEmotion s; playerVote := playerVote s;
     lastResult := lastResult s; gameComplete := gameComplete s;
     audioRecording := audioRecording s; audioUrl := audioUrl s;
     recordingInProgress := inProgress; isAudioProcessed := isAudioProcessed s;
     isLoading := isLoading s; error := error s; voteTimer := voteTimer s |}.

Definition setAudioProcessed (processed : bool) (s : State) : State :=
  {| roomState := roomState s; isConnected := isConnected s; playerName := playerName s;
     hostToken := hostToken s; currentRound := currentRound s;
     speakerEmotion := speakerEmotion s; playerVote := playerVote s;
     lastResult := lastResult s; gameComplete := gameComplete s;
     audioRecording := audioRecording s; audioUrl := audioUrl s;
     recordingInProgress := recordingInProgress s; isAudioProcessed := processed;
     isLoading := isLoading s; error := error s; voteTimer := voteTimer s |}.

Definition setLoading (loading : bool) (s : State) : State :=
  {| roomState := roomState s; isConnected := isConnected s; playerName := playerName s;
     hostToken := hostToken s; currentRound := currentRound s;
     speakerEmotion := speakerEmotion s; playerVote := playerVote s;
     lastResult := lastResult s; gameComplete := gameComplete s;
     audioRecording := audioRecording s; audioUrl := audioUrl s;
     recordingInProgress := recordingInProgress s; isAudioProcessed := isAudioProcessed s;
     isLoading := loading; error := error s; voteTimer := voteTimer s |}.

Definition setError (e : option string) (s : State) : State :=
  {| roomState := roomState s; isConnected := isConnected s; playerName := playerName s;
     hostToken := hostToken s; currentRound := currentRound s;
     speakerEmotion := speakerEmotion s; playerVote := playerVote s;
     lastResult := lastResult s; gameComplete := gameComplete s;
     audioRecording := audioRecording s; audioUrl := audioUrl s;
     recordingInProgress := recordingInProgress s; isAudioProcessed := isAudioProcessed s;
     isLoading := isLoading s; error := e; voteTimer := voteTimer s |}.

Definition set_voteTimer (t : VoteTimer) (s : State) : State :=
  {| roomState := roomState s; isConnected := isConnected s; playerName := playerName s;
     hostToken := hostToken s; currentRound := currentRound s;
     speakerEmotion := speakerEmotion s; playerVote := playerVote s;
     lastResult := lastResult s; gameComplete := gameComplete s;
     audioRecording := audioRecording s; audioUrl := audioUrl s;
     recordingInProgress := recordingInProgress s; isAudioProcessed := isAudioProcessed s;
     isLoading := isLoading s; error := error s; voteTimer := t |}.

(** [setVoteTimer(startTime, timeoutSeconds = 30)]: the timer is active
    iff [startTime !== null]. *)
Definition setVoteTimer (start : option string) (timeout : option number) (s : State) : State :=
  set_voteTimer
    {| startTime := start;
       timeoutSeconds := match timeout with Some t => t | None => 30 end;
       isActive := match start with Some _ => true | None => false end |} s.

Definition stopVoteTimer (s : State) : State :=
  set_voteTimer
    {| startTime := startTime (voteTimer s);
       timeoutSeconds := timeoutSeconds (voteTimer s);
       isActive := false |} s.

Definition reset (s : State) : State := initialState.

End GameStore.

(** ** frontend/hooks/useSocket.ts *)

Module UseSocket.
Import Game GameStore.

Record PlayerEventData : Type := { pe_playerName : string; pe_playerId : string }.

Record RoundStartData : Type := {
  rs_roundId : string;
  rs_phrase : string;
  rs_speakerName : string;
  rs_votingChoices : option (list EmotionChoice)
}.

Record SpeakerEmotionData : Type := {
  se_roundId : string;
  se_emotion : option string;
  se_emotionId : option string;
  se_emotionName : option string
}.

Record GameCompleteData : Type := {
  gc_rankings : option (list Ranking);
  gc_totalRounds : option number;
  gc_totalCycles : option number;
  gc_finalScores : option (gmap string Q)
}.

Record AudioReceivedData : Type := {
  audio : Blob;
  ar_speaker_name : string;
  is_processed : option bool;
  voting_started_at : option string;
  vote_timeout_seconds : option number
}.

Record VoteTimeoutData : Type := { vt_message : string; timeout_seconds : number }.

Record ErrorData : Type := { code : string; err_message : string }.

(** What the registered callbacks receive: the socket events, and the
    expiry of the three-second timeout armed by [vote_timeout]. *)
Inductive Event : Type :=
  | connect
  | disconnect
  | connect_error (message : string)
  | connected (message : string)
  | room_state (data : RoomState)
  | player_joined (data : PlayerEventData)
  | player_reconnected (data : PlayerEventData)
  | player_left (data : PlayerEventData)
  | left_room (message : string)
  | player_disconnected (data : PlayerEventData)
  | round_start (data : RoundStartData)
  | speaker_emotion (data : SpeakerEmotionData)
  | round_result (data : RoundResult)
  | game_complete (data : GameCompleteData)
  | audio_received (data : AudioReceivedData) (objectUrl : option string)
  | vote_timeout (data : VoteTimeoutData)
  | vote_timeout_elapsed
  | error_event (data : ErrorData).

(** [x || d] for an optional value with a falsy default. *)
Definition or_default {A : Type} (x : option A) (d : A) : A :=
  match x with Some a => a | None => d end.

Definition or_number (x : option number) (d : number) : number :=
  match x with
  | Some n => if truthy_number n then n else d
  | None => d
  end.

Definition or_bool (x : option bool) (d : bool) : bool :=
  match x with Some true => true | _ => d end.

(** Truthiness of [data.isGameComplete]. *)
Definition is_true (x : option bool) : bool :=
  match x with Some true => true | _ => false end.

(** [data.voting_started_at && data.vote_timeout_seconds] is truthy. *)
Definition timerInfo (data : AudioReceivedData) : option (string * number) :=
  match voting_started_at data, vote_timeout_seconds data with
  | Some t, Some n => if truthy_string t && truthy_number n then Some (t, n) else None
  | _, _ => None
  end.

Section Handlers.

(** [store = useGameStore()]: the store value of the render in which the
    effect registered the callbacks.  The actions reached through it act
    on the live store; the fields read through it ([store.roomState])
    are those of that render. *)
Variable store : State.

Definition on_room_state (data : RoomState) (s : State) : State :=
  let s := setRoomState data s in
  if GamePhase_eqb (phase data) waiting then
    setAudioProcessed false (setAudioUrl None (setGameComplete None s))
  else s.

Definition on_round_start (data : RoundStartData) (s : State) : State :=
  let round := {| id := rs_roundId data;
                  phrase := rs_phrase data;
                  emotion_id := "";
                  speaker_name := rs_speakerName data;
                  voting_choices := Some (or_default (rs_votingChoices data) []);
                  wheel_mode := None |} in
  let s := setCurrentRound (Some round) s in
  let s := setLastResult None s in
  let s := setAudioUrl None s in
  let s := setAudioProcessed false s in
  setError None s.

Definition on_speaker_emotion (data : SpeakerEmotionData) (s : State) : State :=
  let emotionToSet := or_string (se_emotion data) (se_emotionId data) in
  setSpeakerEmotion emotionToSet s.

Definition on_round_result (data : RoundResult) (s : State) : State :=
  let s := setLastResult (Some data) s in
  let s := setCurrentRound None s in
  let s := setSpeakerEmotion None s in
  let s := stopVoteTimer s in
  if is_true (isGameComplete data) then s
  else
    match roomState store with
    | Some currentRoomState => setRoomState (with_phase currentRoomState waiting) s
    | None => s
    end.

Definition on_game_complete (data : GameCompleteData) (s : State) : State :=
  let gameCompleteData :=
    {| isComplete := true;
       rankings := or_default (gc_rankings data) [];
       totalRounds := or_number (gc_totalRounds data) 0;
       totalCycles := Some (or_number (gc_totalCycles data) 0);
       finalScores := Some (or_default (gc_finalScores data) ∅) |} in
  let s := setGameComplete (Some gameCompleteData) s in
  match roomState store with
  | Some currentRoomState => setRoomState (with_phase currentRoomState closed) s
  | None => s
  end.

(** [objectUrl] is what [URL.createObjectURL] returns for the blob made
    of [data.audio]; [None] when making the blob or the URL throws, which
    the [catch] turns into an error message. *)
Definition on_audio_received (data : AudioReceivedData) (objectUrl : option string)
    (s : State) : State :=
  let s := setError None s in
  match objectUrl with
  | Some audioUrl =>
      let s := setAudioUrl (Some audioUrl) s in
      let s := setAudioProcessed (or_bool (is_processed data) false) s in
      match timerInfo data with
      | Some (t, n) => setVoteTimer (Some t) (Some n) s
      | None => s
      end
  | None => setError (Some "音声データの処理に失敗しました") s
  end.

Definition handle (s : State) (e : Event) : State :=
  match e with
  | connect => setError None (setConnected true s)
  | disconnect => setConnected false s
  | connect_error message => setError (Some ("Connection failed: " +:+ message)) s
  | connected _ => s
  | room_state data => on_room_state data s
  | player_joined _ => s
  | player_reconnected _ => s
  | player_left _ => s
  | left_room _ => reset s
  | player_disconnected _ => s
  | round_start data => on_round_start data s
  | speaker_emotion data => on_speaker_emotion data s
  | round_result data => on_round_result data s
  | game_complete data => on_game_complete data s
  | audio_received data objectUrl => on_audio_received data objectUrl s
  | vote_timeout data => setError (Some (vt_message data)) s
  | vote_timeout_elapsed => setError None s
  | error_event data => setError (Some (code data +:+ ": " +:+ err_message data)) s
  end.

(** The store after a sequence of events. *)
Definition run (s : State) (events : list Event) : State :=
  fold_left handle events s.

End Handlers.

(** The hook mounted on store [s0]: the callbacks close over [s0] and the
    live store starts as [s0]. *)
Definition mounted (s0 : State) (events : list Event) : State := run s0 s0 events.

(** The phase the client currently holds, if it holds a room state. *)
Definition phaseOf (s : State) : option GamePhase :=
  match roomState s with Some r => Some (phase r) | None => None end.

(** The emitters.  [socket] tells whether [socketClient.getSocket()]
    returns a socket; the result lists the messages emitted. *)
Definition joinRoom (socket : bool) (roomId playerName : string) (env : PlayerStorage.Env)
    : list ClientMessage * PlayerStorage.Env :=
  if socket then
    let '(playerId, env1) := PlayerStorage.getOrCreatePlayerId env in
    let env2 := PlayerStorage.savePlayerName playerName env1 in
    ([join_room roomId playerName playerId], env2)
  else ([], env).

Definition startRound (socket : bool) : list ClientMessage :=
  if socket then [start_round] else [].

Definition submitVote (socket : bool) (roundId emotionId : string) : list ClientMessage :=
  if socket then [submit_vote roundId emotionId] else [].

Definition leaveRoom (socket : bool) : list ClientMessage :=
  if socket then [leave_room] else [].

Definition restartGame (socket : bool) : list ClientMessage :=
  if socket then [restart_game] else [].

End UseSocket.

(** ** Vocabulary of the statements *)

Module Props.
Import PlutchikEmotions PlutchikScoring.

(** The ids of the 24 defined emotions. *)
Definition definedIds : list string := List.map id PLUTCHIK_EMOTIONS_3_LAYER.

Definition isDefined (i : string) : Prop := In i definedIds.

Definition returns {A : Type} (c : completion A) : bool :=
  match c with Return _ => true | Throw _ => false end.

Definition throws {A : Type} (c : completion A) : Prop :=
  exists msg, c = Throw msg.

(** Table checks, run over all pairs of defined emotions. *)
Definition allPairs (check : PlutchikEmotion -> PlutchikEmotion -> bool) : bool :=
  forallb (fun e1 => forallb (check e1) PLUTCHIK_EMOTIONS_3_LAYER) PLUTCHIK_EMOTIONS_3_LAYER.

Definition Relationship_eqb (a b : Relationship) : bool :=
  match a, b with
  | rel_exact, rel_exact | same_axis, same_axis | adjacent_axis, adjacent_axis
  | opposite_axis, opposite_axis | distant_axis, distant_axis => true
  | _, _ => false
  end.

Definition axisDistanceAgrees (e1 e2 : PlutchikEmotion) : bool :=
  match calculateAxisDistance (axis e1) (axis e2) with
  | Return d => Qeq_bool d (angleAxisDistance e1 e2)
  | Throw _ => false
  end.

Definition relationshipSymmetric (e1 e2 : PlutchikEmotion) : bool :=
  match getAxisRelationship (axis e1) (axis e2), getAxisRelationship (axis e2) (axis e1) with
  | Return r1, Return r2 => Relationship_eqb r1 r2 && negb (Relationship_eqb r1 rel_exact)
  | _, _ => false
  end.

(** Two table entries with the same axis and the same intensity carry
    the same id. *)
Definition idDeterminedByAxisIntensity (e1 e2 : PlutchikEmotion) : bool :=
  implb (String.eqb (axis e1) (axis e2) && IntensityLevel_eqb (intensity e1) (intensity e2))
        (String.eqb (id e1) (id e2)).

(** The credit one vote earns the speaker: the score of the vote against
    the target. *)
Definition voteCredit (correctEmotionId vote : string) (basePoints : double) : double :=
  match calculatePlutchikScore3Layer correctEmotionId vote basePoints with
  | Return r => score r
  | Throw _ => 0
  end.

(** *** Scores in doubles *)

(** The fractions of [maxScore] the scoring table grants, largest first. *)
Definition percentages : list double :=
  [0.85; 0.70; 0.60; 0.45; 0.30; 0.25; 0.15; 0.10; 0.05]%float.

(** The scores a guess other than the target can get, largest percentage
    first; the last is the plain [0] of the cases without a percentage. *)
Definition gradedScores (maxScore : double) : list double :=
  (List.map (fun p => Math_round (maxScore * p)) percentages ++ [0%float])%list.

(** The percentage a case of the nested [switch] applies, if any. *)
Definition percentOf (rel : Relationship) (im : IntensityMatch) : option double :=
  match rel, im with
  | same_axis, im_close => Some 0.85
  | same_axis, im_far => Some 0.70
  | adjacent_axis, im_exact => Some 0.60
  | adjacent_axis, im_close => Some 0.45
  | adjacent_axis, im_far => Some 0.30
  | opposite_axis, im_exact => Some 0.10
  | opposite_axis, im_close => Some 0.05
  | distant_axis, im_exact => Some 0.25
  | distant_axis, im_close => Some 0.15
  | distant_axis, im_far => Some 0.05
  | _, _ => None
  end%float.

(** The place of a case's score in [maxScore :: gradedScores maxScore]. *)
Definition gradeIndex (rel : Relationship) (im : IntensityMatch) : nat :=
  match rel, im with
  | same_axis, im_close => 1
  | same_axis, im_far => 2
  | adjacent_axis, im_exact => 3
  | adjacent_axis, im_close => 4
  | adjacent_axis, im_far => 5
  | distant_axis, im_exact => 6
  | distant_axis, im_close => 7
  | opposite_axis, im_exact => 8
  | opposite_axis, im_close => 9
  | distant_axis, im_far => 9
  | _, _ => 10
  end%nat.

(** Every element is [<=] the elements before it, and [<=] itself (so none
    is NaN). *)
Fixpoint descending (l : list double) : bool :=
  match l with
  | [] => true
  | x :: rest => forallb (fun y => Double.le y x) (x :: rest) && descending rest
  end.

(** What is evaluated for one integer [maxScore = z]: the full score and
    the graded scores in descending order down to 0, the full score equal
    to itself, and from 4 on no graded score equal to the full score. *)
Definition scoreChecks (z : Z) : bool :=
  let m := Double.ofInteger z in
  let graded := gradedScores m in
  descending (m :: graded) && Double.strictEq m m &&
  ((z <? 4)%Z || forallb (fun s => negb (Double.strictEq s m)) graded).

Fixpoint zrange (count : nat) (first : Z) : list Z :=
  match count with
  | O => []
  | S n => first :: zrange n (first + 1)%Z
  end.

(** The integer scores are evaluated from 0 up to this one. *)
Definition maxChecked : Z := 100000.

Definition optionDouble_eqb (a b : option double) : bool :=
  match a, b with
  | Some x, Some y => PrimFloat.Leibniz.eqb x y
  | None, None => true
  | _, _ => false
  end.

(** *** Player identity *)

(** [k] successive calls of [getOrCreatePlayerId]: the ids returned, in
    order, and the environment left behind. *)
Fixpoint repeatGetOrCreate (k : nat) (env : PlayerStorage.Env)
    : list string * PlayerStorage.Env :=
  match k with
  | O => ([], env)
  | S k' =>
      let '(playerId, env1) := PlayerStorage.getOrCreatePlayerId env in
      let '(ids, env2) := repeatGetOrCreate k' env1 in
      (playerId :: ids, env2)
  end.

(** Successive [joinRoom] calls on a connected socket, one per
    (room id, player name): all messages emitted, in order. *)
Fixpoint joinRooms (requests : list (string * string)) (env : PlayerStorage.Env)
    : list Game.ClientMessage * PlayerStorage.Env :=
  match requests with
  | [] => ([], env)
  | (roomId, playerName) :: rest =>
      let '(msgs, env1) := UseSocket.joinRoom true roomId playerName env in
      let '(more, env2) := joinRooms rest env1 in
      ((msgs ++ more)%list, env2)
  end.

(** *** The game store *)

Definition roundPresent (s : GameStore.State) : bool :=
  match GameStore.currentRound s with Some _ => true | None => false end.

Definition inRound (s : GameStore.State) : bool :=
  match UseSocket.phaseOf s with Some Game.in_round => true | _ => false end.

(** [phase == in_round] iff a [currentRound] is present. *)
Definition phaseRoundConsistent (s : GameStore.State) : bool :=
  Bool.eqb (inRound s) (roundPresent s).

Definition timerActive (s : GameStore.State) : bool :=
  GameStore.isActive (GameStore.voteTimer s).

(** The events that start the vote timer: an [audio_received] whose audio
    could be turned into a URL and which carries timer information. *)
Definition startsTimer (e : UseSocket.Event) : bool :=
  match e with
  | UseSocket.audio_received data (Some _) =>
      match UseSocket.timerInfo data with Some _ => true | None => false end
  | _ => false
  end.

End Props.

(** ** Sample data *)

Module Samples.
Import Game GameStore UseSocket.

Definition config0 : RoomConfig :=
  {| mode := basic; vote_type := choice4; speaker_order := sequential;
     Game.vote_timeout := 30; max_rounds := 1; hard_mode := None |}.

Definition room (p : GamePhase) : RoomState :=
  {| roomId := "room-1";
     players := [player_info {| name := "A"; score := 0 |};
                 player_info {| name := "B"; score := 0 |}];
     phase := p; config := config0; currentSpeaker := None |}.

Definition roundStart1 : RoundStartData :=
  {| rs_roundId := "round-1"; rs_phrase := "こんにちは"; rs_speakerName := "A";
     rs_votingChoices := None |}.

Definition roundStart2 : RoundStartData :=
  {| rs_roundId := "round-2"; rs_phrase := "こんにちは"; rs_speakerName := "B";
     rs_votingChoices := None |}.

Definition result1 : RoundResult :=
  {| round_id := "round-1"; correct_emotion := "joy"; correctEmotionId := Some "joy";
     result_speaker_name := "A";
     scores := <["A" := 1]> (<["B" := 1]> ∅);
     votes := <["B" := "joy"]> ∅;
     isGameComplete := Some false; completedRounds := Some 1; maxRounds := Some 2;
     completedCycles := None; maxCycles := None |}.

Definition audio1 : AudioReceivedData :=
  {| audio := []; ar_speaker_name := "A"; is_processed := None;
     voting_started_at := Some "2026-01-10T00:00:00Z";
     vote_timeout_seconds := Some 30 |}.

(** A store that holds the room in phase [in_round] with round 1 running. *)
Definition playing : State :=
  on_round_start roundStart1 (on_room_state (room in_round) initialState).

(** A browser whose storage is empty. *)
Definition freshBrowser : PlayerStorage.Env :=
  {| PlayerStorage.hasWindow := true;
     PlayerStorage.localStorage := ∅;
     PlayerStorage.uuids := fun n =>
       match n with
       | O => "3b241101-e2bb-4255-8caf-4136c566a962"
       | _ => "9f0c2f7e-5d1a-4c3b-8e2a-7b6d5c4e3f21"
       end;
     PlayerStorage.drawn := 0 |}.

End Samples.

(** ** Further vocabulary: tables, orders, store invariants *)

Module Spec.
Import PlutchikEmotions PlutchikScoring Props.

Definition allTriples
    (check : PlutchikEmotion -> PlutchikEmotion -> PlutchikEmotion -> bool) : bool :=
  forallb (fun e1 =>
    forallb (fun e2 => forallb (check e1 e2) PLUTCHIK_EMOTIONS_3_LAYER)
            PLUTCHIK_EMOTIONS_3_LAYER)
    PLUTCHIK_EMOTIONS_3_LAYER.

(** The laws of a bounded metric, as table checks. *)
Definition distanceLaws (e1 e2 : PlutchikEmotion) : bool :=
  Qeq_bool (calculateEmotionDistance e1 e2) (calculateEmotionDistance e2 e1)
  && Qle_bool 0 (calculateEmotionDistance e1 e2)
  && Qle_bool (calculateEmotionDistance e1 e2) 5
  && Bool.eqb (Qeq_bool (calculateEmotionDistance e1 e2) 0) (String.eqb (id e1) (id e2)).

Definition distanceTriangle (e1 e2 e3 : PlutchikEmotion) : bool :=
  Qle_bool (calculateEmotionDistance e1 e3)
           (calculateEmotionDistance e1 e2 + calculateEmotionDistance e2 e3).

(** The intensity distance of the scoring module against the one computed
    inside [calculateEmotionDistance]. *)
Definition intensityDistanceAgrees (i1 i2 : IntensityLevel) : bool :=
  Qeq_bool (calculateIntensityDistance i1 i2)
           (Math_abs (indexOf [weak; medium; strong] i1 - indexOf [weak; medium; strong] i2)).

(** The wheel positions, as the object literal lists them. *)
Definition axisPositions : list (string * Q) :=
  [("joy", 0); ("trust", 1); ("fear", 2); ("surprise", 3);
   ("sadness", 4); ("disgust", 5); ("anger", 6); ("anticipation", 7)].

(** What [calculateAxisDistance] computes from two positions. *)
Definition positionDistance (pos1 pos2 : Q) : Q :=
  if num_eqb pos1 pos2 then 0
  else Math_min (Math_abs (pos1 - pos2)) (8 - Math_abs (pos1 - pos2)).

Definition positionLaws (p1 p2 : string * Q) : bool :=
  Qeq_bool (positionDistance (snd p1) (snd p2)) (positionDistance (snd p2) (snd p1))
  && Qle_bool 0 (positionDistance (snd p1) (snd p2))
  && Qle_bool (positionDistance (snd p1) (snd p2)) 4
  && Bool.eqb (Qeq_bool (positionDistance (snd p1) (snd p2)) 0) (String.eqb (fst p1) (fst p2))
  && Qeq_bool (positionDistance (snd p1) (snd p2))
              (inject_Z (Qfloor (positionDistance (snd p1) (snd p2))))
  && Bool.eqb (num_eqb (snd p1) (snd p2)) (String.eqb (fst p1) (fst p2)).

Definition allPositionPairs (check : string * Q -> string * Q -> bool) : bool :=
  forallb (fun p1 => forallb (check p1) axisPositions) axisPositions.

(** The [switch (distance)] of [getAxisRelationship]. *)
Definition relationshipOfDistance (distance : Q) : Relationship :=
  if num_eqb distance 1 then adjacent_axis
  else if num_eqb distance 4 then opposite_axis
  else distant_axis.

Definition relationshipLaws (p1 p2 : string * Q) : bool :=
  let d := positionDistance (snd p1) (snd p2) in
  let rel := relationshipOfDistance d in
  String.eqb (fst p1) (fst p2)
  || (Relationship_eqb rel (relationshipOfDistance (positionDistance (snd p2) (snd p1)))
      && Bool.eqb (Relationship_eqb rel adjacent_axis) (Qeq_bool d 1)
      && Bool.eqb (Relationship_eqb rel opposite_axis) (Qeq_bool d 4)
      && Bool.eqb (Relationship_eqb rel distant_axis) (Qeq_bool d 2 || Qeq_bool d 3)).

(** Closeness ranks: smaller is closer. *)
(** The percentage of a guess [axisSteps] steps round the wheel and
    [intensitySteps] intensity levels away from the target: same axis 85%
    and 70%; adjacent axis 60%, 45%, 30%; opposite axis (4 steps) 10%, 5%,
    nothing; 2 or 3 steps 25%, 15%, 5%. *)
Definition gradedPercent (axisSteps intensitySteps : number) : option double :=
  if num_eqb axisSteps 0 then
    if num_eqb intensitySteps 1 then Some 0.85%float
    else if num_eqb intensitySteps 2 then Some 0.70%float
    else None
  else if num_eqb axisSteps 1 then
    if num_eqb intensitySteps 0 then Some 0.60%float
    else if num_eqb intensitySteps 1 then Some 0.45%float
    else Some 0.30%float
  else if num_eqb axisSteps 4 then
    if num_eqb intensitySteps 0 then Some 0.10%float
    else if num_eqb intensitySteps 1 then Some 0.05%float
    else None
  else
    if num_eqb intensitySteps 0 then Some 0.25%float
    else if num_eqb intensitySteps 1 then Some 0.15%float
    else Some 0.05%float.

Definition gradedCredit (axisSteps intensitySteps : number) (basePoints : double) : double :=
  match gradedPercent axisSteps intensitySteps with
  | Some p => Math_round (basePoints * p)
  | None => 0
  end.

(** On two table entries with different ids, the percentage the [switch]
    applies is the one of their distances. *)
Definition gradeAgrees (e1 e2 : PlutchikEmotion) : bool :=
  String.eqb (id e1) (id e2) ||
  match calculateAxisDistance (axis e1) (axis e2), getAxisRelationship (axis e1) (axis e2) with
  | Return d, Return rel =>
      optionDouble_eqb
        (percentOf rel (getIntensityMatch (intensity e1) (intensity e2)))
        (gradedPercent d (calculateIntensityDistance (intensity e1) (intensity e2)))
  | _, _ => false
  end.

Definition relRank (rel : Relationship) : nat :=
  match rel with
  | rel_exact => 0
  | same_axis => 1
  | adjacent_axis => 2
  | distant_axis => 3
  | opposite_axis => 4
  end.

Definition imRank (im : IntensityMatch) : nat :=
  match im with
  | im_exact => 0
  | im_close => 1
  | im_far => 2
  end.

(** *** The game store *)

(** An active timer has a start time, a non-empty one, and a timeout that
    is not 0. *)
Definition timerWellFormed (s : GameStore.State) : Prop :=
  GameStore.isActive (GameStore.voteTimer s) = true ->
  exists t,
    GameStore.startTime (GameStore.voteTimer s) = Some t /\
    truthy_string t = true /\
    truthy_number (GameStore.timeoutSeconds (GameStore.voteTimer s)) = true.

(** The round the store holds, if any, does not tell the target emotion. *)
Definition roundHidesEmotion (s : GameStore.State) : Prop :=
  forall round, GameStore.currentRound s = Some round ->
    Game.emotion_id round = "" /\ Game.voting_choices round <> None.

(** The room state as the server's broadcasts alone determine it: the last
    [room_state] payload, or nothing after [left_room]. *)
Fixpoint lastBroadcast (current : option Game.RoomState) (events : list UseSocket.Event)
    : option Game.RoomState :=
  match events with
  | [] => current
  | UseSocket.room_state data :: rest => lastBroadcast (Some data) rest
  | UseSocket.left_room _ :: rest => lastBroadcast None rest
  | _ :: rest => lastBroadcast current rest
  end.

(** [url] ends with [suffix]. *)
Definition endsWith (url suffix : string) : Prop :=
  exists prefix, url = prefix +:+ suffix.

End Spec.

(** * Properties *)

Import PlutchikEmotions PlutchikScoring Props.

(** ** The emotion table *)

Lemma getEmotionById_Some_In i e :
  getEmotionById i = Some e -> In e PLUTCHIK_EMOTIONS_3_LAYER /\ id e = i.
Proof.
  unfold getEmotionById. intros H. apply find_some in H as [Hin Heq].
  split; [exact Hin | now apply String.eqb_eq].
Qed.

Lemma isDefined_getEmotionById i :
  isDefined i <-> exists e, getEmotionById i = Some e.
Proof.
  split.
  - intros Hin. unfold isDefined, definedIds in Hin. apply in_map_iff in Hin as (e0 & He0 & Hin).
    destruct (getEmotionById i) as [e|] eqn:Hfind; [now exists e|].
    unfold getEmotionById in Hfind.
    pose proof (find_none _ _ Hfind e0 Hin) as Hno. cbv beta in Hno.
    rewrite He0, String.eqb_refl in Hno. discriminate.
  - intros [e He]. apply getEmotionById_Some_In in He as [Hin <-].
    unfold isDefined, definedIds. now apply in_map.
Qed.

Lemma not_isDefined_getEmotionById i :
  ~ isDefined i <-> getEmotionById i = None.
Proof.
  rewrite isDefined_getEmotionById. split.
  - intros H. destruct (getEmotionById i) as [e|]; [|reflexivity]. exfalso. apply H. now exists e.
  - intros -> [e He]. discriminate.
Qed.

Lemma allPairs_spec check :
  allPairs check = true ->
  forall e1 e2, In e1 PLUTCHIK_EMOTIONS_3_LAYER -> In e2 PLUTCHIK_EMOTIONS_3_LAYER ->
    check e1 e2 = true.
Proof.
  unfold allPairs. intros H e1 e2 H1 H2.
  rewrite forallb_forall in H. specialize (H e1 H1). cbv beta in H.
  rewrite forallb_forall in H. exact (H e2 H2).
Qed.

Lemma axisDistanceAgrees_table : allPairs axisDistanceAgrees = true.
Proof. vm_compute. reflexivity. Qed.

Lemma relationshipSymmetric_table : allPairs relationshipSymmetric = true.
Proof. vm_compute. reflexivity. Qed.

Lemma idDeterminedByAxisIntensity_table : allPairs idDeterminedByAxisIntensity = true.
Proof. vm_compute. reflexivity. Qed.

(** ** Axis distance: angles against wheel positions *)

(** C8.  For every pair of the 24 defined emotions, the position-based
    [calculateAxisDistance] of their axes returns, and what it returns is
    the angle-based axis distance computed inside [calculateEmotionDistance],
    min(|angle1 - angle2|, 360 - |angle1 - angle2|) / 45. *)
Theorem axis_distance_embeddings_agree (e1 e2 : PlutchikEmotion) :
  In e1 PLUTCHIK_EMOTIONS_3_LAYER ->
  In e2 PLUTCHIK_EMOTIONS_3_LAYER ->
  exists d,
    calculateAxisDistance (axis e1) (axis e2) = Return d /\
    d == Math_min (Math_abs (angle e1 - angle e2)) (360 - Math_abs (angle e1 - angle e2)) / 45 /\
    calculateEmotionDistance e1 e2 ==
      d + Math_abs (indexOf [weak; medium; strong] (intensity e1) -
                    indexOf [weak; medium; strong] (intensity e2)) * 0.5.
Proof.
  intros H1 H2.
  pose proof (allPairs_spec _ axisDistanceAgrees_table e1 e2 H1 H2) as Hc.
  unfold axisDistanceAgrees in Hc.
  destruct (calculateAxisDistance (axis e1) (axis e2)) as [d|msg]; [|discriminate].
  apply Qeq_bool_eq in Hc. exists d. split; [reflexivity|]. split.
  - exact Hc.
  - unfold calculateEmotionDistance. cbv zeta. now rewrite Hc.
Qed.

Lemma axis_distance_embeddings_agree_witness :
  exists e1 e2,
    In e1 PLUTCHIK_EMOTIONS_3_LAYER /\ In e2 PLUTCHIK_EMOTIONS_3_LAYER /\
    axis e1 = "joy" /\ axis e2 = "anticipation" /\
    exists d, calculateAxisDistance (axis e1) (axis e2) = Return d /\ d == 1 /\
              calculateEmotionDistance e1 e2 == 2.
Proof.
  pose (e1 := mk "joy_strong" "joy" strong "陶酔" "Ecstasy" "#FFD700" 0 "🤩").
  pose (e2 := mk "anticipation_weak" "anticipation" weak "関心" "Interest" "#FFCC99" 315 "🧐").
  assert (H1 : In e1 PLUTCHIK_EMOTIONS_3_LAYER) by (vm_compute; tauto).
  assert (H2 : In e2 PLUTCHIK_EMOTIONS_3_LAYER) by (vm_compute; tauto).
  exists e1, e2. repeat (split; [first [assumption | reflexivity]|]).
  destruct (axis_distance_embeddings_agree e1 e2 H1 H2) as (d & Hd & Hang & Htot).
  exists d. split; [exact Hd|]. split.
  - rewrite Hang. vm_compute. reflexivity.
  - rewrite Htot, Hang. vm_compute. reflexivity.
Defined.

(** ** Anatomy of a score *)

Lemma axisDistance_returns e1 e2 :
  In e1 PLUTCHIK_EMOTIONS_3_LAYER -> In e2 PLUTCHIK_EMOTIONS_3_LAYER ->
  exists d, calculateAxisDistance (axis e1) (axis e2) = Return d.
Proof.
  intros H1 H2.
  pose proof (allPairs_spec _ axisDistanceAgrees_table e1 e2 H1 H2) as Hc.
  unfold axisDistanceAgrees in Hc.
  destruct (calculateAxisDistance (axis e1) (axis e2)) as [d|msg]; [now exists d|discriminate].
Qed.

Lemma Relationship_eqb_eq a b : Relationship_eqb a b = true -> a = b.
Proof. destruct a, b; simpl; congruence. Qed.

Lemma axisRelationship_returns e1 e2 :
  In e1 PLUTCHIK_EMOTIONS_3_LAYER -> In e2 PLUTCHIK_EMOTIONS_3_LAYER ->
  exists rel,
    getAxisRelationship (axis e1) (axis e2) = Return rel /\
    getAxisRelationship (axis e2) (axis e1) = Return rel /\
    rel <> rel_exact.
Proof.
  intros H1 H2.
  pose proof (allPairs_spec _ relationshipSymmetric_table e1 e2 H1 H2) as Hc.
  unfold relationshipSymmetric in Hc.
  destruct (getAxisRelationship (axis e1) (axis e2)) as [r1|]; [|discriminate].
  destruct (getAxisRelationship (axis e2) (axis e1)) as [r2|]; [|discriminate].
  apply andb_prop in Hc as [Heq Hne]. apply Relationship_eqb_eq in Heq. subst r2.
  exists r1. repeat split. intros ->. discriminate.
Qed.


Lemma getIntensityMatch_exact i1 i2 :
  getIntensityMatch i1 i2 = im_exact -> IntensityLevel_eqb i1 i2 = true.
Proof. destruct i1, i2; vm_compute; congruence. Qed.

Lemma same_axis_eqb a1 a2 rel :
  getAxisRelationship a1 a2 = Return rel -> rel = same_axis -> String.eqb a1 a2 = true.
Proof.
  unfold getAxisRelationship. destruct (String.eqb a1 a2); [reflexivity|].
  destruct (calculateAxisDistance a1 a2) as [d|]; simpl; [|discriminate].
  intros H ->. repeat (destruct (num_eqb d _) in H; simpl in H; try discriminate).
Qed.

(** What [calculatePlutchikScore3Layer] returns on two different defined
    ids: the graded score of their axis relationship and intensity match. *)
Lemma score_of_distinct c g m ec eg :
  getEmotionById c = Some ec -> getEmotionById g = Some eg -> c <> g ->
  exists d rel,
    calculateAxisDistance (axis ec) (axis eg) = Return d /\
    getAxisRelationship (axis ec) (axis eg) = Return rel /\
    getAxisRelationship (axis eg) (axis ec) = Return rel /\
    ~ (rel = same_axis /\ getIntensityMatch (intensity ec) (intensity eg) = im_exact) /\
    rel <> rel_exact /\
    calculatePlutchikScore3Layer c g m =
      Return {| score := baseScore rel (getIntensityMatch (intensity ec) (intensity eg)) m;
                axisDistance := d;
                intensityDistance := calculateIntensityDistance (intensity ec) (intensity eg);
                totalDistance := calculateEmotionDistance ec eg;
                relationship := rel;
                intensityMatch := getIntensityMatch (intensity ec) (intensity eg);
                maxScore := m |}.
Proof.
  intros Hc Hg Hne.
  destruct (getEmotionById_Some_In _ _ Hc) as [Hinc Hidc].
  destruct (getEmotionById_Some_In _ _ Hg) as [Hing Hidg].
  destruct (axisDistance_returns ec eg Hinc Hing) as [d Hd].
  destruct (axisRelationship_returns ec eg Hinc Hing) as (rel & Hrel & Hrel' & Hnex).
  exists d, rel. repeat (split; [assumption|]). split; [|split; [assumption|]].
  - intros [Hsame Hex].
    pose proof (allPairs_spec _ idDeterminedByAxisIntensity_table ec eg Hinc Hing) as Hdet.
    unfold idDeterminedByAxisIntensity in Hdet.
    rewrite (same_axis_eqb _ _ _ Hrel Hsame), (getIntensityMatch_exact _ _ Hex) in Hdet.
    simpl in Hdet. apply String.eqb_eq in Hdet. congruence.
  - unfold calculatePlutchikScore3Layer. rewrite Hc, Hg.
    destruct (String.eqb_spec c g) as [->|_]; [contradiction|].
    rewrite Hd. simpl. rewrite Hrel. reflexivity.
Qed.

Lemma score_of_equal c m ec :
  getEmotionById c = Some ec ->
  calculatePlutchikScore3Layer c c m =
    Return {| score := m; axisDistance := 0; intensityDistance := 0; totalDistance := 0;
              relationship := rel_exact; intensityMatch := im_exact; maxScore := m |}.
Proof.
  intros Hc. unfold calculatePlutchikScore3Layer. rewrite Hc, String.eqb_refl. reflexivity.
Qed.

(** ** Errors *)

(** C10.  [calculatePlutchikScore3Layer] throws if and only if at least one
    of its two ids is not among the 24 defined emotions; when both are
    defined it returns a result, the invalid-axis branch of
    [calculateAxisDistance] included in what cannot be reached. *)
Theorem score_throws_iff_undefined_id (c g : string) (m : double) :
  (throws (calculatePlutchikScore3Layer c g m) <-> (~ isDefined c \/ ~ isDefined g)) /\
  (isDefined c /\ isDefined g ->
     (exists r, calculatePlutchikScore3Layer c g m = Return r) /\
     exists ec eg d rel,
       getEmotionById c = Some ec /\ getEmotionById g = Some eg /\
       calculateAxisDistance (axis ec) (axis eg) = Return d /\
       getAxisRelationship (axis ec) (axis eg) = Return rel).
Proof.
  assert (Hdef : isDefined c /\ isDefined g ->
     (exists r, calculatePlutchikScore3Layer c g m = Return r) /\
     exists ec eg d rel,
       getEmotionById c = Some ec /\ getEmotionById g = Some eg /\
       calculateAxisDistance (axis ec) (axis eg) = Return d /\
       getAxisRelationship (axis ec) (axis eg) = Return rel).
  { intros [Hc Hg].
    apply isDefined_getEmotionById in Hc as [ec Hc].
    apply isDefined_getEmotionById in Hg as [eg Hg].
    destruct (getEmotionById_Some_In _ _ Hc) as [Hinc _].
    destruct (getEmotionById_Some_In _ _ Hg) as [Hing _].
    destruct (axisDistance_returns ec eg Hinc Hing) as [d Hd].
    destruct (axisRelationship_returns ec eg Hinc Hing) as (rel & Hrel & _).
    split.
    - destruct (String.eqb_spec c g) as [->|Hne].
      + eexists. apply (score_of_equal g m ec Hc).
      + destruct (score_of_distinct c g m ec eg Hc Hg Hne) as (d' & rel' & _ & _ & _ & _ & _ & Hr).
        eexists. exact Hr.
    - exists ec, eg, d, rel. auto. }
  split; [|exact Hdef]. split.
  - intros [msg Hthrow].
    destruct (getEmotionById c) as [ec|] eqn:Hc.
    + destruct (getEmotionById g) as [eg|] eqn:Hg.
      * exfalso. destruct Hdef as [[r Hr] _].
        { split; apply isDefined_getEmotionById; eauto. }
        congruence.
      * right. now apply not_isDefined_getEmotionById.
    + left. now apply not_isDefined_getEmotionById.
  - intros H. unfold throws, calculatePlutchikScore3Layer.
    destruct H as [H|H]; apply not_isDefined_getEmotionById in H; rewrite H.
    + destruct (getEmotionById g); eauto.
    + destruct (getEmotionById c); eauto.
Qed.

Lemma score_throws_iff_undefined_id_witness :
  (exists r, calculatePlutchikScore3Layer "joy_strong" "anger_weak" 100 = Return r) /\
  throws (calculatePlutchikScore3Layer "joy_strong" "joy" 100).
Proof.
  split.
  - apply (score_throws_iff_undefined_id "joy_strong" "anger_weak" 100).
    split; vm_compute; tauto.
  - apply (score_throws_iff_undefined_id "joy_strong" "joy" 100).
    right. vm_compute. intuition discriminate.
Defined.

(** ** Rounding in doubles *)

Lemma zrange_In count first z :
  In z (zrange count first) <-> (first <= z < first + Z.of_nat count)%Z.
Proof.
  revert first. induction count as [|n IH]; intros first.
  - simpl. lia.
  - cbn [zrange In]. rewrite IH. lia.
Qed.

(** The scores of every integer [maxScore] from 0 to [maxChecked],
    evaluated. *)
Lemma scoreChecks_table :
  forallb scoreChecks (zrange (S (Z.to_nat maxChecked)) 0) = true.
Proof. vm_compute. reflexivity. Qed.

Lemma scoreChecks_in_range z : (0 <= z <= maxChecked)%Z -> scoreChecks z = true.
Proof.
  intros Hz. pose proof scoreChecks_table as Htable.
  rewrite forallb_forall in Htable. apply Htable. apply zrange_In.
  rewrite Nat2Z.inj_succ, Z2Nat.id by (unfold maxChecked; lia). lia.
Qed.

Lemma descending_nth l :
  descending l = true ->
  forall i j, (i <= j < length l)%nat -> Double.le (nth j l 0%float) (nth i l 0%float) = true.
Proof.
  induction l as [|x rest IH]; intros Hdesc i j Hij; [simpl in Hij; lia|].
  cbn [descending] in Hdesc. apply andb_prop in Hdesc as [Hhead Hrest].
  destruct i as [|i].
  - rewrite forallb_forall in Hhead. apply Hhead. apply nth_In. lia.
  - destruct j as [|j]; [lia|]. cbn [nth]. apply IH; [exact Hrest|]. simpl in Hij. lia.
Qed.

Lemma baseScore_percent rel im m :
  baseScore rel im m =
    match percentOf rel im with Some p => Math_round (m * p) | None => 0%float end.
Proof. destruct rel, im; reflexivity. Qed.

Lemma baseScore_nth rel im m :
  baseScore rel im m = nth (gradeIndex rel im) (m :: gradedScores m) 0%float.
Proof. destruct rel, im; reflexivity. Qed.

Lemma baseScore_graded rel im m : In (baseScore rel im m) (gradedScores m).
Proof.
  unfold gradedScores, percentages. cbn [List.map app In].
  destruct rel, im; cbn [baseScore]; repeat (first [left; reflexivity | right]).
Qed.

Lemma gradeIndex_bound rel im : (gradeIndex rel im <= 10)%nat.
Proof. destruct rel, im; simpl; lia. Qed.

Lemma gradedScores_length m : length (m :: gradedScores m) = 11%nat.
Proof. reflexivity. Qed.

Section IntegerScores.
Variable z : Z.
Hypothesis Hz : (0 <= z <= maxChecked)%Z.

Lemma integer_scores_descending :
  descending (Double.ofInteger z :: gradedScores (Double.ofInteger z)) = true.
Proof.
  pose proof (scoreChecks_in_range z Hz) as H. unfold scoreChecks in H. cbv zeta in H.
  apply andb_prop in H as [H _]. apply andb_prop in H as [H _]. exact H.
Qed.


Lemma integer_score_le_itself :
  Double.le (Double.ofInteger z) (Double.ofInteger z) = true.
Proof.
  apply (descending_nth _ integer_scores_descending 0%nat 0%nat).
  rewrite gradedScores_length. lia.
Qed.


Lemma baseScore_integer_nonneg rel im :
  Double.le 0 (baseScore rel im (Double.ofInteger z)) = true.
Proof.
  rewrite baseScore_nth.
  apply (descending_nth _ integer_scores_descending (gradeIndex rel im) 10%nat).
  rewrite gradedScores_length. pose proof (gradeIndex_bound rel im). lia.
Qed.

Lemma baseScore_integer_le_max rel im :
  Double.le (baseScore rel im (Double.ofInteger z)) (Double.ofInteger z) = true.
Proof.
  rewrite baseScore_nth.
  apply (descending_nth _ integer_scores_descending 0%nat (gradeIndex rel im)).
  rewrite gradedScores_length. pose proof (gradeIndex_bound rel im). lia.
Qed.

Lemma baseScore_integer_le_85 rel im :
  Double.le (baseScore rel im (Double.ofInteger z)) (Math_round (Double.ofInteger z * 0.85)) = true.
Proof.
  rewrite baseScore_nth.
  destruct rel, im;
    try (apply (descending_nth _ integer_scores_descending 1%nat 1%nat);
         rewrite gradedScores_length; lia);
    match goal with
    | |- Double.le (nth ?j _ _) _ = true =>
        apply (descending_nth _ integer_scores_descending 1%nat j);
        rewrite gradedScores_length; simpl; lia
    end.
Qed.

Lemma baseScore_integer_below_max rel im :
  (4 <= z)%Z ->
  Double.strictEq (baseScore rel im (Double.ofInteger z)) (Double.ofInteger z) = false.
Proof.
  intros Hbig.
  pose proof (scoreChecks_in_range z Hz) as H. unfold scoreChecks in H. cbv zeta in H.
  apply andb_prop in H as [_ H].
  destruct (Z.ltb_spec z 4) as [Hlt|_]; [lia|]. cbn [orb] in H.
  rewrite forallb_forall in H.
  specialize (H _ (baseScore_graded rel im (Double.ofInteger z))). now apply negb_true_iff in H.
Qed.

Lemma baseScore_integer_antitone rel1 im1 rel2 im2 :
  rel1 <> rel_exact -> ~ (rel1 = same_axis /\ im1 = im_exact) ->
  (Spec.relRank rel1 <= Spec.relRank rel2)%nat -> (Spec.imRank im1 <= Spec.imRank im2)%nat ->
  Double.le (baseScore rel2 im2 (Double.ofInteger z))
            (baseScore rel1 im1 (Double.ofInteger z)) = true.
Proof.
  intros Hnex Hnse Hrel Him. rewrite !baseScore_nth.
  apply (descending_nth _ integer_scores_descending).
  rewrite gradedScores_length. pose proof (gradeIndex_bound rel2 im2). split; [|lia].
  destruct rel1; try congruence;
    destruct im1; try (exfalso; apply Hnse; split; reflexivity);
    destruct rel2; simpl in Hrel; try lia;
    destruct im2; simpl in Him; try lia; simpl; lia.
Qed.

End IntegerScores.

(** ** Range and symmetry of the score *)




(** ** The speaker bonus *)

Lemma score_returns c g m :
  isDefined c -> isDefined g -> exists r, calculatePlutchikScore3Layer c g m = Return r.
Proof.
  intros Hc Hg.
  apply isDefined_getEmotionById in Hc as [ec Hc].
  apply isDefined_getEmotionById in Hg as [eg Hg].
  destruct (String.eqb_spec c g) as [->|Hne].
  - eexists. apply (score_of_equal g m ec Hc).
  - destruct (score_of_distinct c g m ec eg Hc Hg Hne) as (d & rel & _ & _ & _ & _ & _ & Hr).
    eexists. exact Hr.
Qed.

Lemma voteCredit_correct E bp : isDefined E -> voteCredit E E bp = bp.
Proof.
  intros HE. apply isDefined_getEmotionById in HE as [e He].
  unfold voteCredit. now rewrite (score_of_equal E bp e He).
Qed.

Lemma gradeAgrees_table : allPairs Spec.gradeAgrees = true.
Proof. vm_compute. reflexivity. Qed.

Lemma optionDouble_eqb_eq a b : optionDouble_eqb a b = true -> a = b.
Proof.
  destruct a as [x|], b as [y|]; simpl; try discriminate; [|reflexivity].
  intros H. apply FloatAxioms.Leibniz.eqb_spec in H. now subst.
Qed.

(** The score of a guess that differs from the target, by the two
    distances its result reports. *)
Lemma score_by_distance c g m r :
  isDefined c -> isDefined g -> c <> g ->
  calculatePlutchikScore3Layer c g m = Return r ->
  score r = Spec.gradedCredit (axisDistance r) (intensityDistance r) m /\
  exists rel im,
    score r = baseScore rel im m.
Proof.
  intros Hc Hg Hne Hr.
  apply isDefined_getEmotionById in Hc as [ec Hc].
  apply isDefined_getEmotionById in Hg as [eg Hg].
  destruct (getEmotionById_Some_In _ _ Hc) as [Hinc Hidc].
  destruct (getEmotionById_Some_In _ _ Hg) as [Hing Hidg].
  destruct (score_of_distinct c g m ec eg Hc Hg Hne)
    as (d & rel & Hd & Hrel & _ & _ & _ & Hr').
  rewrite Hr' in Hr. injection Hr as <-. simpl.
  split; [|eauto].
  pose proof (allPairs_spec _ gradeAgrees_table ec eg Hinc Hing) as Hagree.
  unfold Spec.gradeAgrees in Hagree. rewrite Hd, Hrel in Hagree.
  destruct (String.eqb_spec (id ec) (id eg)) as [Heq|_]; [congruence|].
  simpl in Hagree. apply optionDouble_eqb_eq in Hagree.
  unfold Spec.gradedCredit. rewrite <- Hagree. apply baseScore_percent.
Qed.

Lemma speakerBonusLoop_returns E values bp :
  isDefined E -> Forall isDefined values ->
  forall acc,
    speakerBonusLoop E values bp acc =
      Return (fold_left (fun total vote => Double.add total (voteCredit E vote bp)) values acc).
Proof.
  intros HE Hall. induction Hall as [|v rest Hv _ IH]; intros acc.
  - reflexivity.
  - destruct (score_returns E v bp HE Hv) as [r Hr].
    cbn [speakerBonusLoop fold_left]. unfold voteCredit at 2. rewrite Hr. simpl.
    apply IH.
Qed.

(** C1 (as amended).  Over a vote set of defined emotion ids,
    [calculateSpeakerBonus3Layer] returns the sum over all votes, taken in
    the order of [Object.values] and added up in doubles from 0, of the
    score of the vote against the target with [basePoints] as the full
    score.  Every vote exactly equal to the target emotion is credited
    exactly [basePoints], the same credit per correct vote.  Every other
    vote is credited the graded score of its distance from the target on the
    wheel, [Math.round(basePoints * p)] with the percentage [p] of
    [Spec.gradedPercent], or 0 where there is none; for an integer [basePoints]
    from 0 to [maxChecked] that credit lies between 0 and
    [Math.round(basePoints * 0.85)], and from 4 on it differs from
    [basePoints]. *)
Theorem speaker_bonus_credit (E : string) (votes : list (string * string)) (bp : double) :
  isDefined E -> Forall isDefined (Object_values votes) ->
  calculateSpeakerBonus3Layer E votes bp =
    Return (fold_left (fun total vote => Double.add total (voteCredit E vote bp))
                      (Object_values votes) 0%float) /\
  (forall vote, In vote (Object_values votes) ->
     exists r,
       calculatePlutchikScore3Layer E vote bp = Return r /\
       voteCredit E vote bp = score r /\
       (vote = E -> score r = bp) /\
       (vote <> E ->
          score r = Spec.gradedCredit (axisDistance r) (intensityDistance r) bp /\
          In (score r) (gradedScores bp) /\
          forall z, (0 <= z <= maxChecked)%Z -> bp = Double.ofInteger z ->
            Double.le 0 (score r) = true /\
            Double.le (score r) (Math_round (bp * 0.85)) = true /\
            ((4 <= z)%Z -> Double.strictEq (score r) bp = false))).
Proof.
  intros HE Hall. split.
  - apply (speakerBonusLoop_returns E (Object_values votes) bp HE Hall).
  - intros vote Hin.
    assert (Hv : isDefined vote) by (rewrite List.Forall_forall in Hall; now apply Hall).
    destruct (score_returns E vote bp HE Hv) as [r Hr]. exists r.
    split; [exact Hr|]. split; [unfold voteCredit; now rewrite Hr|]. split.
    + intros ->. pose proof (voteCredit_correct E bp HE) as Hcredit.
      unfold voteCredit in Hcredit. now rewrite Hr in Hcredit.
    + intros Hne. assert (Hne' : E <> vote) by congruence.
      destruct (score_by_distance E vote bp r HE Hv Hne' Hr) as (Hgraded & rel & im & Hbase).
      split; [exact Hgraded|]. rewrite Hbase.
      split; [apply baseScore_graded|].
      intros z Hz ->.
      split; [now apply baseScore_integer_nonneg|].
      split; [now apply baseScore_integer_le_85|].
      now apply baseScore_integer_below_max.
Qed.

Lemma speaker_bonus_credit_witness :
  calculateSpeakerBonus3Layer "joy_strong"
    [("p1", "joy_strong"); ("p2", "sadness_weak"); ("p3", "joy_strong"); ("p4", "trust_strong")]
    defaultBasePoints = Return 26%float /\
  voteCredit "joy_strong" "joy_strong" defaultBasePoints = 10%float /\
  voteCredit "joy_strong" "sadness_weak" defaultBasePoints = 0%float /\
  voteCredit "joy_strong" "trust_strong" defaultBasePoints = 6%float.
Proof.
  assert (HE : isDefined "joy_strong") by (vm_compute; tauto).
  assert (Hall : Forall isDefined (Object_values
            [("p1", "joy_strong"); ("p2", "sadness_weak"); ("p3", "joy_strong");
             ("p4", "trust_strong")])).
  { repeat constructor; vm_compute; tauto. }
  destruct (speaker_bonus_credit "joy_strong" _ defaultBasePoints HE Hall) as [Hsum _].
  split; [rewrite Hsum; vm_compute; reflexivity|].
  repeat split; vm_compute; reflexivity.
Defined.

(** C1, counterexample.  A single vote [joy_medium] against the target
    [joy_strong] is not equal to the target, yet it earns the speaker
    [Math.round(10 * 0.85) = 9] of the 10 base points; and a ballot with
    one exact vote earns 10, not 1. *)
Lemma speaker_bonus_credits_near_miss :
  calculateSpeakerBonus3Layer "joy_strong" [("listener", "joy_medium")] defaultBasePoints
    = Return 9%float /\
  List.filter (String.eqb "joy_strong") (Object_values [("listener", "joy_medium")]) = [] /\
  calculateSpeakerBonus3Layer "joy_strong" [("listener", "joy_strong")] defaultBasePoints
    = Return 10%float /\
  List.filter (String.eqb "joy_strong") (Object_values [("listener", "joy_strong")])
    = ["joy_strong"].
Proof. vm_compute. repeat split; reflexivity. Qed.

(** ** Voice processing under hard mode *)

Section VoiceSelection.
Import VoiceProcessing.

(** The table holds the eight axes and the 24 defined emotion ids. *)
Lemma defined_ids_have_reversal :
  forallb (fun i => match EMOTION_REVERSAL_MAP !! i with Some _ => true | None => false end)
          definedIds = true.
Proof. vm_compute. reflexivity. Qed.

(** C6.  For every emotion id that has an entry in [EMOTION_REVERSAL_MAP],
    whatever [Math.random] would return, [getVoiceProcessingForEmotion]
    returns the [emotion_reverse] pattern whose pitch and tempo are exactly
    that entry's pitch and tempo. *)
Theorem reversal_keyed_by_emotion (random : number) (emotionId : string) (entry : Reversal) :
  EMOTION_REVERSAL_MAP !! emotionId = Some entry ->
  getVoiceProcessingForEmotion random emotionId =
    Some {| pattern := emotion_reverse;
            pitch := rev_pitch entry;
            tempo := rev_tempo entry;
            description := "感情逆転変換（" +:+ emotionId +:+ " → 反対感情）" |}.
Proof.
  intros Hentry. unfold getVoiceProcessingForEmotion. rewrite Hentry. reflexivity.
Qed.

Lemma reversal_keyed_by_emotion_witness :
  exists cfg,
    getVoiceProcessingForEmotion (1 # 2) "fear_medium" = Some cfg /\
    pattern cfg = emotion_reverse /\ pitch cfg = 2 /\ tempo cfg = 1.6.
Proof.
  eexists. split.
  - apply (reversal_keyed_by_emotion (1 # 2) "fear_medium"
             {| rev_pitch := 2; rev_tempo := 1.6 |}).
    vm_compute. reflexivity.
  - repeat split.
Defined.

(** Without an entry the fallback draws one of the four other patterns. *)
Lemma fallback_is_not_reversal (random : number) (emotionId : string) :
  EMOTION_REVERSAL_MAP !! emotionId = None -> 0 <= random -> random < 1 ->
  exists cfg, getVoiceProcessingForEmotion random emotionId = Some cfg /\
              pattern cfg <> emotion_reverse.
Proof.
  intros Hnone H0 H1. unfold getVoiceProcessingForEmotion. rewrite Hnone.
  cbn [List.filter List.map VOICE_PROCESSING_PATTERNS snd pattern
       VoiceProcessingPattern_eqb negb length].
  change (inject_Z (Z.of_nat 4)) with 4.
  unfold Math_floor.
  assert (Hlo : (0 <= Qfloor (random * 4))%Z).
  { change 0%Z with (Qfloor 0). apply Qfloor_resp_le. lra. }
  assert (Hhi : (Qfloor (random * 4) < 4)%Z).
  { rewrite Zlt_Qlt. eapply Qle_lt_trans; [apply Qfloor_le|]. change (inject_Z 4) with 4. lra. }
  unfold array_get. destruct (Z.ltb_spec (Qfloor (random * 4)) 0) as [Hneg|_]; [lia|].
  assert (Hcases : Qfloor (random * 4) = 0%Z \/ Qfloor (random * 4) = 1%Z \/
                   Qfloor (random * 4) = 2%Z \/ Qfloor (random * 4) = 3%Z) by lia.
  destruct Hcases as [-> | [-> | [-> | ->]]]; simpl; eexists; (split; [reflexivity|discriminate]).
Qed.

End VoiceSelection.

(** ** The player identifier *)

Section PlayerIdentity.
Import PlayerStorage.

Lemma truthy_string_ne s : truthy_string s = true -> s <> "".
Proof. unfold truthy_string. intros H ->. discriminate. Qed.

(** A stored, non-empty id is returned as it is, with nothing changed. *)
Lemma getOrCreatePlayerId_stored env playerId :
  hasWindow env = true ->
  localStorage env !! PLAYER_ID_KEY = Some playerId ->
  truthy_string playerId = true ->
  getOrCreatePlayerId env = (playerId, env).
Proof.
  intros Hw Hget Ht. unfold getOrCreatePlayerId, localStorage_getItem.
  rewrite Hw, Hget, Ht. reflexivity.
Qed.

(** In the browser the id returned is the one in storage afterwards. *)
Lemma getOrCreatePlayerId_persists env playerId env1 :
  hasWindow env = true ->
  (forall n, truthy_string (uuids env n) = true) ->
  getOrCreatePlayerId env = (playerId, env1) ->
  hasWindow env1 = true /\
  uuids env1 = uuids env /\
  localStorage env1 !! PLAYER_ID_KEY = Some playerId /\
  truthy_string playerId = true.
Proof.
  intros Hw Hu. unfold getOrCreatePlayerId, localStorage_getItem. rewrite Hw. simpl.
  destruct (localStorage env !! PLAYER_ID_KEY) as [stored|] eqn:Hget.
  - destruct (truthy_string stored) eqn:Ht.
    + intros [= <- <-]. auto.
    + intros [= <- <-]. simpl. rewrite lookup_insert_eq. auto.
  - intros [= <- <-]. simpl. rewrite lookup_insert_eq. auto.
Qed.

Lemma savePlayerName_keeps_id name env :
  hasWindow (savePlayerName name env) = hasWindow env /\
  uuids (savePlayerName name env) = uuids env /\
  localStorage (savePlayerName name env) !! PLAYER_ID_KEY = localStorage env !! PLAYER_ID_KEY.
Proof.
  unfold savePlayerName. destruct (hasWindow env) eqn:Hw; simpl; [|auto].
  rewrite Hw. repeat split. now rewrite lookup_insert_ne.
Qed.

Lemma repeatGetOrCreate_stored k env playerId :
  hasWindow env = true ->
  localStorage env !! PLAYER_ID_KEY = Some playerId ->
  truthy_string playerId = true ->
  repeatGetOrCreate k env = (repeat playerId k, env).
Proof.
  intros Hw Hget Ht. induction k as [|k IH]; simpl; [reflexivity|].
  rewrite (getOrCreatePlayerId_stored env playerId Hw Hget Ht), IH. reflexivity.
Qed.

Lemma joinRooms_stored requests env playerId :
  hasWindow env = true ->
  localStorage env !! PLAYER_ID_KEY = Some playerId ->
  truthy_string playerId = true ->
  exists env',
    joinRooms requests env =
      (List.map (fun r => Game.join_room (fst r) (snd r) playerId) requests, env') /\
    hasWindow env' = true /\
    localStorage env' !! PLAYER_ID_KEY = Some playerId.
Proof.
  revert env. induction requests as [|[roomId playerName] rest IH]; intros env Hw Hget Ht.
  - exists env. simpl. auto.
  - simpl. unfold UseSocket.joinRoom.
    rewrite (getOrCreatePlayerId_stored env playerId Hw Hget Ht).
    destruct (savePlayerName_keeps_id playerName env) as (Hw' & _ & Hget').
    destruct (IH (savePlayerName playerName env)) as (env' & Hjoin & Hw'' & Hget'');
      [congruence | congruence | assumption |].
    rewrite Hjoin. exists env'. simpl. auto.
Qed.

(** C7.  In the browser, once [getOrCreatePlayerId] has returned an id,
    that id is the one persisted in [localStorage]; every later call returns
    this same id and generates nothing; and every [join_room] message that
    [joinRoom] emits from then on carries it. *)
Theorem player_id_durable (env env1 : Env) (playerId : string) :
  hasWindow env = true ->
  (forall n, truthy_string (uuids env n) = true) ->
  getOrCreatePlayerId env = (playerId, env1) ->
  getPlayerId env1 = Some playerId /\
  getOrCreatePlayerId env1 = (playerId, env1) /\
  (forall k, repeatGetOrCreate k env1 = (repeat playerId k, env1)) /\
  (forall requests, exists env2,
     joinRooms requests env1 =
       (List.map (fun r => Game.join_room (fst r) (snd r) playerId) requests, env2) /\
     getPlayerId env2 = Some playerId) /\
  (forall roomId playerName, exists env2,
     UseSocket.joinRoom true roomId playerName env =
       ([Game.join_room roomId playerName playerId], env2) /\
     getPlayerId env2 = Some playerId).
Proof.
  intros Hw Hu Hcall.
  destruct (getOrCreatePlayerId_persists env playerId env1 Hw Hu Hcall) as (Hw1 & Hu1 & Hget & Ht).
  split; [unfold getPlayerId, localStorage_getItem; now rewrite Hw1|].
  split; [now apply getOrCreatePlayerId_stored|].
  split; [intros k; now apply repeatGetOrCreate_stored|].
  split.
  - intros requests.
    destruct (joinRooms_stored requests env1 playerId Hw1 Hget Ht) as (env2 & Hj & Hw2 & Hget2).
    exists env2. split; [exact Hj|].
    unfold getPlayerId, localStorage_getItem. now rewrite Hw2.
  - intros roomId playerName. unfold UseSocket.joinRoom. rewrite Hcall.
    eexists. split; [reflexivity|].
    destruct (savePlayerName_keeps_id playerName env1) as (Hw2 & _ & Hget2).
    unfold getPlayerId, localStorage_getItem. rewrite Hw2, Hw1. simpl. congruence.
Qed.

Lemma player_id_durable_witness :
  exists env1,
    getOrCreatePlayerId Samples.freshBrowser = ("3b241101-e2bb-4255-8caf-4136c566a962", env1) /\
    getOrCreatePlayerId env1 = ("3b241101-e2bb-4255-8caf-4136c566a962", env1) /\
    exists env2,
      UseSocket.joinRoom true "room-1" "A" Samples.freshBrowser =
        ([Game.join_room "room-1" "A" "3b241101-e2bb-4255-8caf-4136c566a962"], env2) /\
      getPlayerId env2 = Some "3b241101-e2bb-4255-8caf-4136c566a962".
Proof.
  assert (Hw : hasWindow Samples.freshBrowser = true) by reflexivity.
  assert (Hu : forall n, truthy_string (uuids Samples.freshBrowser n) = true)
    by (intros [|n]; reflexivity).
  eexists. split; [reflexivity|].
  destruct (player_id_durable Samples.freshBrowser _ _ Hw Hu eq_refl)
    as (_ & Hagain & _ & _ & Hjoin).
  split; [exact Hagain|]. exact (Hjoin "room-1" "A").
Defined.

End PlayerIdentity.

(** ** The game store under the socket events *)

Section StoreEvents.
Import Game GameStore UseSocket.

(** The callbacks registered by the hook close over this store value. *)
Variable store : State.

(** *** Round start *)

Lemma on_round_start_fields data s :
  currentRound (on_round_start data s) =
    Some {| id := rs_roundId data; phrase := rs_phrase data; emotion_id := "";
            speaker_name := rs_speakerName data;
            voting_choices := Some (or_default (rs_votingChoices data) []);
            wheel_mode := None |} /\
  playerVote (on_round_start data s) = None /\
  roomState (on_round_start data s) = roomState s /\
  voteTimer (on_round_start data s) = voteTimer s.
Proof. repeat split. Qed.

(** C5.  Whatever the store held before, after a [round_start] event has
    been processed the stored player vote is cleared ([null]); also at the
    end of any sequence of events that ends with [round_start]. *)
Theorem round_start_clears_vote (s : State) (data : RoundStartData) :
  playerVote (handle store s (round_start data)) = None /\
  forall earlier, playerVote (run store s (earlier ++ [round_start data])) = None.
Proof.
  split; [reflexivity|].
  intros earlier. unfold run. rewrite fold_left_app. reflexivity.
Qed.

(** *** Round result *)

Lemma on_round_result_fields data s :
  currentRound (on_round_result store data s) = None /\
  timerActive (on_round_result store data s) = false /\
  roomState (on_round_result store data s) =
    (if is_true (isGameComplete data) then roomState s
     else match roomState store with
          | Some r => Some (with_phase r waiting)
          | None => roomState s
          end).
Proof.
  unfold on_round_result, timerActive.
  destruct (is_true (isGameComplete data)); [repeat split|].
  destruct (roomState store); repeat split.
Qed.

Lemma on_game_complete_roomState data s :
  roomState (on_game_complete store data s) =
    match roomState store with
    | Some r => Some (with_phase r closed)
    | None => roomState s
    end.
Proof. unfold on_game_complete. destruct (roomState store); reflexivity. Qed.

Lemma on_room_state_roomState data s :
  roomState (on_room_state data s) = Some data /\
  currentRound (on_room_state data s) = currentRound s /\
  voteTimer (on_room_state data s) = voteTimer s.
Proof. unfold on_room_state. destruct (GamePhase_eqb (phase data) waiting); repeat split. Qed.

(** C2 (as amended).  The round and the phase are updated by separate
    events.  [round_start] always installs a [currentRound] and leaves the
    stored room state, hence the phase, as it was; the phase becomes
    [in_round] when the [room_state] broadcast carrying it is processed, and
    with a round present the two then agree.  [round_result] always removes
    the [currentRound]; it sets the phase to [waiting] when the game is not
    complete and the hook holds a room state, after which the two agree, and
    leaves the room state as it was when the game is complete. *)
Theorem round_and_phase_updates (s : State) :
  (forall data,
     roundPresent (handle store s (round_start data)) = true /\
     phaseOf (handle store s (round_start data)) = phaseOf s) /\
  (forall data room,
     phase room = in_round ->
     phaseRoundConsistent
       (run store s [round_start data; room_state room]) = true /\
     phaseRoundConsistent
       (run store s [room_state room; round_start data]) = true) /\
  (forall data,
     roundPresent (handle store s (round_result data)) = false /\
     (is_true (isGameComplete data) = true ->
        phaseOf (handle store s (round_result data)) = phaseOf s) /\
     (is_true (isGameComplete data) = false ->
        forall r, roomState store = Some r ->
          phaseOf (handle store s (round_result data)) = Some waiting /\
          phaseRoundConsistent (handle store s (round_result data)) = true)).
Proof.
  split; [|split].
  - intros data. split; reflexivity.
  - intros data room Hphase. unfold phaseRoundConsistent, inRound, roundPresent, phaseOf.
    simpl. unfold on_room_state.
    destruct (GamePhase_eqb (phase room) waiting); simpl; rewrite Hphase; split; reflexivity.
  - intros data. simpl.
    destruct (on_round_result_fields data s) as (Hround & _ & Hroom).
    unfold roundPresent, phaseRoundConsistent, inRound, roundPresent, phaseOf.
    rewrite Hround, Hroom. split; [reflexivity|]. split.
    + intros ->. reflexivity.
    + intros -> r ->. split; reflexivity.
Qed.

(** C2, counterexample.  From the initial store, after the [room_state]
    broadcast of a waiting room and then [round_start], a [currentRound] is
    present while the stored phase is still [waiting]. *)
Lemma round_present_while_waiting :
  let s := mounted initialState [room_state (Samples.room waiting);
                                 round_start Samples.roundStart1] in
  roundPresent s = true /\ phaseOf s = Some waiting /\ phaseRoundConsistent s = false.
Proof. vm_compute. repeat split; reflexivity. Qed.

(** *** The vote timer *)

Lemma setError_voteTimer e s : voteTimer (setError e s) = voteTimer s.
Proof. reflexivity. Qed.

Lemma on_audio_received_timer data objectUrl s :
  voteTimer (on_audio_received data objectUrl s) =
    match objectUrl, timerInfo data with
    | Some _, Some (t, n) => {| startTime := Some t; timeoutSeconds := n; isActive := true |}
    | _, _ => voteTimer s
    end.
Proof.
  unfold on_audio_received. destruct objectUrl as [url|]; [|reflexivity].
  destruct (timerInfo data) as [[t n]|]; reflexivity.
Qed.

(** Every event that does not start the timer leaves an inactive timer
    inactive. *)
Lemma handle_keeps_timer_inactive s e :
  startsTimer e = false -> timerActive s = false -> timerActive (handle store s e) = false.
Proof.
  unfold timerActive. intros Hstart Hoff.
  destruct e; simpl; try exact Hoff; try reflexivity.
  - unfold on_room_state. destruct (GamePhase_eqb (phase data) waiting); exact Hoff.
  - destruct (on_round_result_fields data s) as (_ & Ht & _). exact Ht.
  - unfold on_game_complete. destruct (roomState store); exact Hoff.
  - rewrite on_audio_received_timer. simpl in Hstart.
    destruct objectUrl as [url|]; [|exact Hoff].
    destruct (timerInfo data) as [[t n]|]; [discriminate|exact Hoff].
Qed.

Lemma run_keeps_timer_inactive events :
  forall s, forallb (fun e => negb (startsTimer e)) events = true ->
  timerActive s = false -> timerActive (run store s events) = false.
Proof.
  induction events as [|e rest IH]; intros s Hall Hoff; [exact Hoff|].
  simpl in Hall. apply andb_prop in Hall as [He Hrest].
  apply negb_true_iff in He. simpl. unfold run in IH. apply IH; [exact Hrest|].
  now apply handle_keeps_timer_inactive.
Qed.

(** C3 (as amended).  [round_start] never starts the vote timer: it leaves
    the timer exactly as it was, so the timer is inactive after
    [round_start] whenever it was inactive before (as it is after
    [round_result], and in the initial store).  The timer becomes active only
    when an [audio_received] event carrying timer information is processed,
    and it then holds the given [voting_started_at] and timeout; over any
    sequence of events without such an event an inactive timer stays
    inactive. *)
Theorem vote_timer_starts_on_audio_only (s : State) :
  (forall data, voteTimer (handle store s (round_start data)) = voteTimer s) /\
  (forall result data,
     timerActive (run store s [round_result result; round_start data]) = false) /\
  (forall e,
     timerActive s = false -> timerActive (handle store s e) = true ->
     exists data url t n,
       e = audio_received data (Some url) /\
       voting_started_at data = Some t /\ vote_timeout_seconds data = Some n /\
       truthy_string t = true /\ truthy_number n = true /\
       voteTimer (handle store s e) =
         {| startTime := Some t; timeoutSeconds := n; isActive := true |}) /\
  (forall events,
     forallb (fun e => negb (startsTimer e)) events = true ->
     timerActive s = false -> timerActive (run store s events) = false).
Proof.
  split; [reflexivity|]. split; [|split].
  - intros result data. simpl.
    destruct (on_round_result_fields result s) as (_ & Ht & _). exact Ht.
  - intros e Hoff Hon.
    destruct (startsTimer e) eqn:Hstart.
    + destruct e; try discriminate. simpl in Hstart.
      destruct objectUrl as [url|]; [|discriminate].
      destruct (timerInfo data) as [[t n]|] eqn:Hinfo; [|discriminate].
      exists data, url, t, n. split; [reflexivity|].
      unfold timerInfo in Hinfo.
      destruct (voting_started_at data) as [t'|] eqn:Ht; [|discriminate].
      destruct (vote_timeout_seconds data) as [n'|] eqn:Hn; [|discriminate].
      destruct (truthy_string t') eqn:Htt; [|discriminate].
      destruct (truthy_number n') eqn:Htn; [|discriminate].
      simpl in Hinfo. injection Hinfo as <- <-.
      repeat (split; [assumption || reflexivity|]).
      cbn [handle]. rewrite on_audio_received_timer. unfold timerInfo.
      rewrite Ht, Hn, Htt, Htn. reflexivity.
    + rewrite (handle_keeps_timer_inactive s e Hstart Hoff) in Hon. discriminate.
  - intros events. apply run_keeps_timer_inactive.
Qed.

(** C3, counterexample.  When [audio_received] has started the timer and the
    next event processed is [round_start], the timer is still active after
    [round_start]. *)
Lemma timer_active_after_round_start :
  let s := mounted initialState
             [round_start Samples.roundStart1;
              audio_received Samples.audio1 (Some "blob:emoguchi/1");
              round_start Samples.roundStart2] in
  timerActive s = true /\
  voteTimer s = {| startTime := Some "2026-01-10T00:00:00Z"; timeoutSeconds := 30;
                   isActive := true |}.
Proof. vm_compute. split; reflexivity. Qed.

(** *** The phase *)

(** C4 (as amended).  The stored phase changes only when one of four events
    is processed: the [room_state] broadcast, which installs the broadcast
    phase; [round_result] of a game that is not complete, which assigns
    [waiting] locally; [game_complete], which assigns [closed] locally (both
    only when the hook holds a room state); and [left_room], which resets
    the store.  Every other event leaves the phase as it was. *)
Theorem phase_changes_only_by (s : State) (e : Event) :
  phaseOf (handle store s e) <> phaseOf s ->
  (exists data, e = room_state data /\ phaseOf (handle store s e) = Some (phase data)) \/
  (exists data r, e = round_result data /\ is_true (isGameComplete data) = false /\
                  roomState store = Some r /\ phaseOf (handle store s e) = Some waiting) \/
  (exists data r, e = game_complete data /\ roomState store = Some r /\
                  phaseOf (handle store s e) = Some closed) \/
  (exists message, e = left_room message /\ phaseOf (handle store s e) = None).
Proof.
  intros Hchange. unfold phaseOf in *.
  destruct e; simpl in *; try (exfalso; apply Hchange; reflexivity).
  - left. exists data. split; [reflexivity|].
    destruct (on_room_state_roomState data s) as (-> & _). reflexivity.
  - right. right. right. exists message. split; reflexivity.
  - right. left.
    destruct (on_round_result_fields data s) as (_ & _ & Hroom). rewrite Hroom in *.
    destruct (is_true (isGameComplete data)) eqn:Hcomplete;
      [exfalso; apply Hchange; reflexivity|].
    destruct (roomState store) as [r|] eqn:Hheld; [|exfalso; apply Hchange; reflexivity].
    exists data, r. repeat split; assumption.
  - right. right. left.
    rewrite on_game_complete_roomState in *.
    destruct (roomState store) as [r|] eqn:Hheld; [|exfalso; apply Hchange; reflexivity].
    exists data, r. repeat split.
  - exfalso. apply Hchange. unfold on_audio_received.
    destruct objectUrl; [|reflexivity]. destruct (timerInfo data) as [[t n]|]; reflexivity.
Qed.

(** C4, counterexample.  With the room in phase [in_round], processing the
    [round_result] of a continuing game changes the stored phase to
    [waiting]: a local assignment, no [room_state] broadcast involved. *)
Lemma round_result_assigns_phase :
  phaseOf Samples.playing = Some in_round /\
  phaseOf (mounted Samples.playing [round_result Samples.result1]) = Some waiting /\
  (forall data, round_result Samples.result1 <> room_state data).
Proof. split; [reflexivity|]. split; [reflexivity|]. intros data. discriminate. Qed.

End StoreEvents.

(** *** The statements at work on the sample round *)

Lemma round_and_phase_updates_witness :
  UseSocket.phaseOf (UseSocket.handle Samples.playing Samples.playing
                       (UseSocket.round_result Samples.result1)) = Some Game.waiting /\
  phaseRoundConsistent (UseSocket.handle Samples.playing Samples.playing
                          (UseSocket.round_result Samples.result1)) = true.
Proof.
  destruct (round_and_phase_updates Samples.playing Samples.playing) as (_ & _ & Hresult).
  destruct (Hresult Samples.result1) as (_ & _ & Hcontinue).
  apply (Hcontinue eq_refl (Samples.room Game.in_round)). reflexivity.
Defined.

Lemma vote_timer_starts_on_audio_only_witness :
  exists data url t n,
    UseSocket.audio_received Samples.audio1 (Some "blob:emoguchi/1") =
      UseSocket.audio_received data (Some url) /\
    UseSocket.voting_started_at data = Some t /\
    UseSocket.vote_timeout_seconds data = Some n /\
    truthy_string t = true /\ truthy_number n = true /\
    GameStore.voteTimer
      (UseSocket.handle GameStore.initialState GameStore.initialState
         (UseSocket.audio_received Samples.audio1 (Some "blob:emoguchi/1"))) =
      {| GameStore.startTime := Some t; GameStore.timeoutSeconds := n;
         GameStore.isActive := true |}.
Proof.
  destruct (vote_timer_starts_on_audio_only GameStore.initialState GameStore.initialState)
    as (_ & _ & Honly & _).
  apply Honly; reflexivity.
Defined.

Lemma phase_changes_only_by_witness :
  exists data r,
    UseSocket.round_result Samples.result1 = UseSocket.round_result data /\
    UseSocket.is_true (Game.isGameComplete data) = false /\
    GameStore.roomState Samples.playing = Some r /\
    UseSocket.phaseOf (UseSocket.handle Samples.playing Samples.playing
                         (UseSocket.round_result Samples.result1)) = Some Game.waiting.
Proof.
  assert (Hchange :
    UseSocket.phaseOf (UseSocket.handle Samples.playing Samples.playing
                         (UseSocket.round_result Samples.result1))
    <> UseSocket.phaseOf Samples.playing) by (vm_compute; discriminate).
  destruct (phase_changes_only_by Samples.playing Samples.playing _ Hchange)
    as [(data & Habs & _) | [Hresult | [(data & r & Habs & _) | (message & Habs & _)]]];
    try discriminate Habs.
  exact Hresult.
Defined.

(** * Further properties of the modelled code *)

Import Spec.

(** ** Lookups in the emotion table *)

Lemma table_lookup_own_id x :
  In x PLUTCHIK_EMOTIONS_3_LAYER -> getEmotionById (id x) = Some x.
Proof.
  intros Hx. unfold PLUTCHIK_EMOTIONS_3_LAYER in Hx.
  repeat (destruct Hx as [<-|Hx]; [vm_compute; reflexivity|]). destruct Hx.
Qed.

Lemma table_id_injective e e' :
  In e PLUTCHIK_EMOTIONS_3_LAYER -> In e' PLUTCHIK_EMOTIONS_3_LAYER ->
  id e' = id e -> e' = e.
Proof.
  intros He He' Hid. pose proof (table_lookup_own_id e' He') as H'.
  rewrite Hid, (table_lookup_own_id e He) in H'. congruence.
Qed.

(** X1.  Ids are keys of the emotion table: looking up the id of a table
    entry returns that very entry, so two entries with the same id are the
    same entry. *)
Theorem getEmotionById_table_entry (e : PlutchikEmotion) :
  In e PLUTCHIK_EMOTIONS_3_LAYER ->
  getEmotionById (id e) = Some e /\
  forall e', In e' PLUTCHIK_EMOTIONS_3_LAYER -> id e' = id e -> e' = e.
Proof.
  intros He. split; [now apply table_lookup_own_id|].
  intros e' He' Hid. now apply table_id_injective.
Qed.

Lemma getEmotionById_table_entry_witness :
  exists e, getEmotionById "fear_weak" = Some e /\ nameEn e = "Apprehension".
Proof.
  pose (e := mk "fear_weak" "fear" weak "不安" "Apprehension" "#C8A2C8" 90 "😟").
  assert (He : In e PLUTCHIK_EMOTIONS_3_LAYER) by (vm_compute; tauto).
  exists e. split; [exact (proj1 (getEmotionById_table_entry e He))|reflexivity].
Defined.

Lemma axis_lookup_cases a p :
  AXIS_POSITIONS !! a = Some p -> In (a, p) axisPositions.
Proof.
  unfold AXIS_POSITIONS. intros H.
  repeat (apply lookup_insert_Some in H as [[<- <-]|[_ H]]; [vm_compute; tauto|]).
  rewrite lookup_empty in H. discriminate.
Qed.

Lemma axis_lookup_listed a p :
  In (a, p) axisPositions -> AXIS_POSITIONS !! a = Some p.
Proof.
  unfold axisPositions. intros H.
  repeat (destruct H as [[= <- <-]|H]; [vm_compute; reflexivity|]). destruct H.
Qed.

Lemma filter_nothing {A : Type} (f : A -> bool) (l : list A) :
  (forall x, In x l -> f x = false) -> List.filter f l = [].
Proof.
  induction l as [|x rest IH]; intros H; [reflexivity|].
  simpl. rewrite (H x (or_introl eq_refl)). apply IH. intros y Hy. apply H. now right.
Qed.

Lemma table_axes_in_getAxes :
  forallb (fun e => existsb (String.eqb (axis e)) getAxes) PLUTCHIK_EMOTIONS_3_LAYER = true.
Proof. vm_compute. reflexivity. Qed.

(** X2.  The table is a wheel of eight axes with three intensities each:
    [getAxes] lists the keys of [AXIS_POSITIONS]; for each of them
    [getEmotionsByAxis] returns exactly three emotions, strong, medium and
    weak; for any other string it returns the empty array; every defined
    emotion is found under its own axis and under its own intensity; and
    [getEmotionsByIntensity] returns one emotion per axis, in wheel order. *)
Theorem emotions_partitioned_by_axis_and_intensity (a : string) :
  (In a getAxes <-> is_Some (AXIS_POSITIONS !! a)) /\
  (In a getAxes ->
     exists s m w, getEmotionsByAxis a = [s; m; w] /\
       intensity s = strong /\ intensity m = medium /\ intensity w = weak) /\
  (~ In a getAxes -> getEmotionsByAxis a = []) /\
  (forall e, In e PLUTCHIK_EMOTIONS_3_LAYER ->
     In e (getEmotionsByAxis (axis e)) /\ In e (getEmotionsByIntensity (intensity e))) /\
  (forall l, List.map axis (getEmotionsByIntensity l) = getAxes).
Proof.
  split; [|split; [|split; [|split]]].
  - split.
    + intros H. vm_compute in H.
      repeat (destruct H as [<-|H]; [vm_compute; eauto|]). destruct H.
    + intros [p Hp]. apply axis_lookup_cases in Hp. unfold axisPositions in Hp.
      repeat (destruct Hp as [[= <- <-]|Hp]; [vm_compute; tauto|]). destruct Hp.
  - intros H. vm_compute in H.
    repeat (destruct H as [<-|H];
            [eexists; eexists; eexists; split; [vm_compute; reflexivity|repeat split]|]).
    destruct H.
  - intros Hno. unfold getEmotionsByAxis.
    apply filter_nothing. intros e He.
    destruct (String.eqb_spec (axis e) a) as [<-|]; [|reflexivity].
    exfalso. apply Hno.
    pose proof table_axes_in_getAxes as Hall. rewrite forallb_forall in Hall.
    specialize (Hall e He). cbv beta in Hall. apply existsb_exists in Hall as (x & Hx & Heq).
    apply String.eqb_eq in Heq. now subst.
  - intros e He. unfold getEmotionsByAxis, getEmotionsByIntensity. split; apply filter_In.
    + split; [exact He|apply String.eqb_refl].
    + split; [exact He|now destruct (intensity e)].
  - intros l. destruct l; vm_compute; reflexivity.
Qed.

Lemma emotions_partitioned_by_axis_and_intensity_witness :
  (exists s m w, getEmotionsByAxis "anger" = [s; m; w] /\
     intensity s = strong /\ intensity m = medium /\ intensity w = weak) /\
  getEmotionsByAxis "anger_strong" = [].
Proof.
  destruct (emotions_partitioned_by_axis_and_intensity "anger") as (_ & Hthree & _).
  destruct (emotions_partitioned_by_axis_and_intensity "anger_strong") as (_ & _ & Hnone & _).
  split.
  - apply Hthree. vm_compute. tauto.
  - apply Hnone. vm_compute. intuition discriminate.
Defined.

(** ** The distance between emotions *)

Lemma allTriples_spec check :
  allTriples check = true ->
  forall e1 e2 e3,
    In e1 PLUTCHIK_EMOTIONS_3_LAYER -> In e2 PLUTCHIK_EMOTIONS_3_LAYER ->
    In e3 PLUTCHIK_EMOTIONS_3_LAYER -> check e1 e2 e3 = true.
Proof.
  unfold allTriples. intros H e1 e2 e3 H1 H2 H3.
  rewrite forallb_forall in H. specialize (H e1 H1). cbv beta in H.
  rewrite forallb_forall in H. specialize (H e2 H2). cbv beta in H.
  rewrite forallb_forall in H. exact (H e3 H3).
Qed.

Lemma distanceLaws_table : allPairs distanceLaws = true.
Proof. vm_compute. reflexivity. Qed.

Lemma distanceTriangle_table : allTriples distanceTriangle = true.
Proof. vm_compute. reflexivity. Qed.

(** X3.  On the 24 defined emotions [calculateEmotionDistance] is a metric
    bounded by 5: it is symmetric, lies between 0 and 5, is 0 exactly
    between an emotion and itself, and obeys the triangle inequality. *)
Theorem emotion_distance_is_metric (e1 e2 e3 : PlutchikEmotion) :
  In e1 PLUTCHIK_EMOTIONS_3_LAYER ->
  In e2 PLUTCHIK_EMOTIONS_3_LAYER ->
  In e3 PLUTCHIK_EMOTIONS_3_LAYER ->
  calculateEmotionDistance e1 e2 == calculateEmotionDistance e2 e1 /\
  0 <= calculateEmotionDistance e1 e2 <= 5 /\
  (calculateEmotionDistance e1 e2 == 0 <-> e1 = e2) /\
  calculateEmotionDistance e1 e3 <=
    calculateEmotionDistance e1 e2 + calculateEmotionDistance e2 e3.
Proof.
  intros H1 H2 H3.
  pose proof (allPairs_spec _ distanceLaws_table e1 e2 H1 H2) as Hlaws.
  pose proof (allTriples_spec _ distanceTriangle_table e1 e2 e3 H1 H2 H3) as Htri.
  unfold distanceLaws in Hlaws. unfold distanceTriangle in Htri.
  apply andb_prop in Hlaws as [Hlaws Hzero]. apply andb_prop in Hlaws as [Hlaws Hhi].
  apply andb_prop in Hlaws as [Hsym Hlo].
  apply Qeq_bool_eq in Hsym. apply Qle_bool_imp_le in Hlo, Hhi, Htri.
  apply Bool.eqb_prop in Hzero.
  split; [exact Hsym|]. split; [split; assumption|]. split; [|exact Htri].
  split.
  - intros Hd. apply Qeq_eq_bool in Hd. rewrite Hzero in Hd. apply String.eqb_eq in Hd.
    symmetry. now apply table_id_injective.
  - intros <-. apply Qeq_bool_eq. rewrite Hzero. apply String.eqb_refl.
Qed.

Lemma emotion_distance_is_metric_witness :
  exists e1 e2 e3,
    id e1 = "joy_strong" /\ id e2 = "trust_medium" /\ id e3 = "sadness_weak" /\
    calculateEmotionDistance e1 e3 <=
      calculateEmotionDistance e1 e2 + calculateEmotionDistance e2 e3 /\
    ~ calculateEmotionDistance e1 e3 == 0.
Proof.
  pose (e1 := mk "joy_strong" "joy" strong "陶酔" "Ecstasy" "#FFD700" 0 "🤩").
  pose (e2 := mk "trust_medium" "trust" medium "信頼" "Trust" "#90EE90" 45 "😊").
  pose (e3 := mk "sadness_weak" "sadness" weak "哀愁" "Pensiveness" "#87CEEB" 180 "😔").
  assert (H1 : In e1 PLUTCHIK_EMOTIONS_3_LAYER) by (vm_compute; tauto).
  assert (H2 : In e2 PLUTCHIK_EMOTIONS_3_LAYER) by (vm_compute; tauto).
  assert (H3 : In e3 PLUTCHIK_EMOTIONS_3_LAYER) by (vm_compute; tauto).
  destruct (emotion_distance_is_metric e1 e2 e3 H1 H2 H3) as (_ & _ & _ & Htri).
  destruct (emotion_distance_is_metric e1 e3 e3 H1 H3 H3) as (_ & _ & Hzero & _).
  exists e1, e2, e3. repeat (split; [reflexivity|]). split; [exact Htri|].
  intros H0. apply Hzero in H0. discriminate.
Defined.

(** ** Axis distance and axis relationship on arbitrary strings *)

Lemma allPositionPairs_spec check :
  allPositionPairs check = true ->
  forall p1 p2, In p1 axisPositions -> In p2 axisPositions -> check p1 p2 = true.
Proof.
  unfold allPositionPairs. intros H p1 p2 H1 H2.
  rewrite forallb_forall in H. specialize (H p1 H1). cbv beta in H.
  rewrite forallb_forall in H. exact (H p2 H2).
Qed.

Lemma positionLaws_table : allPositionPairs positionLaws = true.
Proof. vm_compute. reflexivity. Qed.

Lemma relationshipLaws_table : allPositionPairs relationshipLaws = true.
Proof. vm_compute. reflexivity. Qed.

Lemma calculateAxisDistance_known a1 a2 pos1 pos2 :
  AXIS_POSITIONS !! a1 = Some pos1 -> AXIS_POSITIONS !! a2 = Some pos2 ->
  calculateAxisDistance a1 a2 = Return (positionDistance pos1 pos2).
Proof.
  intros H1 H2. unfold calculateAxisDistance, positionDistance. rewrite H1, H2.
  destruct (num_eqb pos1 pos2); reflexivity.
Qed.

Lemma calculateAxisDistance_throws_iff a1 a2 :
  throws (calculateAxisDistance a1 a2) <->
  AXIS_POSITIONS !! a1 = None \/ AXIS_POSITIONS !! a2 = None.
Proof.
  unfold throws, calculateAxisDistance.
  destruct (AXIS_POSITIONS !! a1) as [pos1|]; [|split; eauto].
  destruct (AXIS_POSITIONS !! a2) as [pos2|]; [|split; eauto].
  split.
  - intros [msg H]. destruct (num_eqb pos1 pos2); discriminate.
  - intros [H|H]; discriminate.
Qed.

(** X4.  On two strings that are not names of properties inherited from
    [Object.prototype], [calculateAxisDistance] throws exactly when one of
    the two is not a key of [AXIS_POSITIONS].  Otherwise it returns a whole
    number of steps between 0 and 4 that does not depend on the order of the
    two axes and is 0 exactly when they are the same axis. *)
Theorem axis_distance_total_on_keys (a1 a2 : string) :
  ~ In a1 Object_prototype_keys -> ~ In a2 Object_prototype_keys ->
  (throws (calculateAxisDistance a1 a2) <->
     AXIS_POSITIONS !! a1 = None \/ AXIS_POSITIONS !! a2 = None) /\
  (forall d, calculateAxisDistance a1 a2 = Return d ->
     (exists d', calculateAxisDistance a2 a1 = Return d' /\ d == d') /\
     0 <= d <= 4 /\
     (d == 0 <-> a1 = a2) /\
     d == inject_Z (Qfloor d)).
Proof.
  intros _ _. split; [apply calculateAxisDistance_throws_iff|].
  intros d Hd.
  destruct (AXIS_POSITIONS !! a1) as [pos1|] eqn:H1;
    [|exfalso; assert (Ht : throws (calculateAxisDistance a1 a2))
        by (apply calculateAxisDistance_throws_iff; rewrite H1; auto);
      destruct Ht as [msg Ht]; congruence].
  destruct (AXIS_POSITIONS !! a2) as [pos2|] eqn:H2;
    [|exfalso; assert (Ht : throws (calculateAxisDistance a1 a2))
        by (apply calculateAxisDistance_throws_iff; rewrite H2; auto);
      destruct Ht as [msg Ht]; congruence].
  rewrite (calculateAxisDistance_known a1 a2 pos1 pos2 H1 H2) in Hd. injection Hd as <-.
  rewrite (calculateAxisDistance_known a2 a1 pos2 pos1 H2 H1).
  pose proof (allPositionPairs_spec _ positionLaws_table (a1, pos1) (a2, pos2)
                (axis_lookup_cases _ _ H1) (axis_lookup_cases _ _ H2)) as Hlaws.
  unfold positionLaws in Hlaws. simpl fst in Hlaws. simpl snd in Hlaws.
  apply andb_prop in Hlaws as [Hlaws _]. apply andb_prop in Hlaws as [Hlaws Hint].
  apply andb_prop in Hlaws as [Hlaws Hzero]. apply andb_prop in Hlaws as [Hlaws Hhi].
  apply andb_prop in Hlaws as [Hsym Hlo].
  apply Qeq_bool_eq in Hsym, Hint. apply Qle_bool_imp_le in Hlo, Hhi.
  apply Bool.eqb_prop in Hzero.
  split; [eexists; split; [reflexivity|exact Hsym]|].
  split; [split; assumption|]. split; [|exact Hint].
  split.
  - intros H0. apply Qeq_eq_bool in H0. rewrite Hzero in H0. now apply String.eqb_eq.
  - intros <-. apply Qeq_bool_eq. rewrite Hzero. apply String.eqb_refl.
Qed.

Lemma axis_distance_total_on_keys_witness :
  exists d, calculateAxisDistance "trust" "anger" = Return d /\ 0 <= d <= 4 /\
            ~ d == 0.
Proof.
  destruct (axis_distance_total_on_keys "trust" "anger") as [_ Hret];
    [vm_compute; intuition discriminate|vm_compute; intuition discriminate|].
  eexists. split; [vm_compute; reflexivity|].
  destruct (Hret _ eq_refl) as (_ & Hrange & Hzero & _).
  split; [exact Hrange|]. intros H0. apply Hzero in H0. discriminate.
Defined.

Lemma getAxisRelationship_switch a1 a2 :
  getAxisRelationship a1 a2 =
    if String.eqb a1 a2 then Return same_axis
    else match calculateAxisDistance a1 a2 with
         | Return d => Return (relationshipOfDistance d)
         | Throw msg => Throw msg
         end.
Proof.
  unfold getAxisRelationship, relationshipOfDistance.
  destruct (String.eqb a1 a2); [reflexivity|].
  destruct (calculateAxisDistance a1 a2) as [d|msg]; [|reflexivity]. simpl.
  destruct (num_eqb d 1); [reflexivity|]. destruct (num_eqb d 4); [reflexivity|].
  destruct (num_eqb d 2 || num_eqb d 3); reflexivity.
Qed.

(** X5.  [getAxisRelationship] answers [same_axis] for two equal strings
    without consulting the wheel, even when the string is not an axis.  For
    two different strings, neither the name of a property inherited from
    [Object.prototype], it throws exactly when one of them is not a key of
    [AXIS_POSITIONS]; otherwise its answer does not depend on their order,
    is never [same_axis] or [exact], and is [adjacent_axis] at distance 1,
    [opposite_axis] at distance 4 and [distant_axis] at distance 2 or 3. *)
Theorem axis_relationship_by_distance (a1 a2 : string) :
  (a1 = a2 -> getAxisRelationship a1 a2 = Return same_axis) /\
  (a1 <> a2 -> ~ In a1 Object_prototype_keys -> ~ In a2 Object_prototype_keys ->
     (throws (getAxisRelationship a1 a2) <->
        AXIS_POSITIONS !! a1 = None \/ AXIS_POSITIONS !! a2 = None) /\
     forall rel, getAxisRelationship a1 a2 = Return rel ->
       getAxisRelationship a2 a1 = Return rel /\
       rel <> same_axis /\ rel <> rel_exact /\
       exists d, calculateAxisDistance a1 a2 = Return d /\
         (rel = adjacent_axis <-> d == 1) /\
         (rel = opposite_axis <-> d == 4) /\
         (rel = distant_axis <-> d == 2 \/ d == 3)).
Proof.
  split.
  - intros <-. rewrite getAxisRelationship_switch, String.eqb_refl. reflexivity.
  - intros Hne _ _. rewrite !getAxisRelationship_switch.
    destruct (String.eqb_spec a1 a2) as [|_]; [contradiction|].
    destruct (String.eqb_spec a2 a1) as [|_]; [congruence|].
    split.
    + rewrite <- calculateAxisDistance_throws_iff. unfold throws.
      destruct (calculateAxisDistance a1 a2) as [d|msg]; split; intros [m H];
        try discriminate; eauto.
    + intros rel Hrel.
      destruct (AXIS_POSITIONS !! a1) as [pos1|] eqn:H1;
        [|unfold calculateAxisDistance in Hrel; rewrite H1 in Hrel; discriminate].
      destruct (AXIS_POSITIONS !! a2) as [pos2|] eqn:H2;
        [|unfold calculateAxisDistance in Hrel; rewrite H1, H2 in Hrel; discriminate].
      rewrite (calculateAxisDistance_known a1 a2 pos1 pos2 H1 H2) in *.
      rewrite (calculateAxisDistance_known a2 a1 pos2 pos1 H2 H1).
      injection Hrel as <-.
      pose proof (allPositionPairs_spec _ relationshipLaws_table (a1, pos1) (a2, pos2)
                    (axis_lookup_cases _ _ H1) (axis_lookup_cases _ _ H2)) as Hlaws.
      unfold relationshipLaws in Hlaws. simpl fst in Hlaws. simpl snd in Hlaws.
      cbv zeta in Hlaws.
      destruct (String.eqb_spec a1 a2) as [|_]; [contradiction|]. simpl in Hlaws.
      apply andb_prop in Hlaws as [Hlaws Hdist]. apply andb_prop in Hlaws as [Hlaws Hopp].
      apply andb_prop in Hlaws as [Hsym Hadj].
      apply Relationship_eqb_eq in Hsym. apply Bool.eqb_prop in Hadj, Hopp, Hdist.
      set (d := positionDistance pos1 pos2) in *.
      set (rel := relationshipOfDistance d) in *.
      split; [now rewrite <- Hsym|].
      assert (Hcase : forall r, rel = r <-> Relationship_eqb rel r = true).
      { intros r. split; [intros <-; now destruct rel|apply Relationship_eqb_eq]. }
      split; [unfold rel, relationshipOfDistance;
              destruct (num_eqb d 1); [discriminate|];
              destruct (num_eqb d 4); discriminate|].
      split; [unfold rel, relationshipOfDistance;
              destruct (num_eqb d 1); [discriminate|];
              destruct (num_eqb d 4); discriminate|].
      exists d. split; [reflexivity|].
      rewrite !Hcase, Hadj, Hopp, Hdist, orb_true_iff, !Qeq_bool_iff. tauto.
Qed.

Lemma axis_relationship_by_distance_witness :
  getAxisRelationship "not an axis" "not an axis" = Return same_axis /\
  getAxisRelationship "joy" "sadness" = Return opposite_axis /\
  throws (getAxisRelationship "joy" "joy_strong").
Proof.
  destruct (axis_relationship_by_distance "not an axis" "not an axis") as [Hsame _].
  destruct (axis_relationship_by_distance "joy" "joy_strong") as [_ Hdiff].
  split; [apply Hsame; reflexivity|]. split; [vm_compute; reflexivity|].
  apply Hdiff;
    [discriminate|vm_compute; intuition discriminate|vm_compute; intuition discriminate|].
  right. vm_compute. reflexivity.
Defined.

(** ** The scoring result as a whole *)

Lemma intensityDistanceAgrees_all i1 i2 : intensityDistanceAgrees i1 i2 = true.
Proof. destruct i1, i2; vm_compute; reflexivity. Qed.

(** X6.  The fields of a scoring result fit together.  For two defined
    ids the result reports the [maxScore] it was given; its [totalDistance]
    (computed from wheel angles and level indices) is its [axisDistance] plus
    half its [intensityDistance] (computed from the position and value
    tables); and the relationship is [exact], equivalently the total distance
    is 0, exactly when the two ids are equal. *)
Theorem scoring_result_consistent (c g : string) (m : double) :
  isDefined c -> isDefined g ->
  exists r,
    calculatePlutchikScore3Layer c g m = Return r /\
    maxScore r = m /\
    totalDistance r == axisDistance r + intensityDistance r * 0.5 /\
    (relationship r = rel_exact <-> c = g) /\
    (totalDistance r == 0 <-> c = g).
Proof.
  intros Hc Hg.
  apply isDefined_getEmotionById in Hc as [ec Hc].
  apply isDefined_getEmotionById in Hg as [eg Hg].
  destruct (String.eqb_spec c g) as [<-|Hne].
  - eexists. split; [apply (score_of_equal c m ec Hc)|]. simpl.
    repeat split; auto; try reflexivity.
  - destruct (score_of_distinct c g m ec eg Hc Hg Hne)
      as (d & rel & Hd & _ & _ & _ & Hnex & Hr).
    destruct (getEmotionById_Some_In _ _ Hc) as [Hinc Hidc].
    destruct (getEmotionById_Some_In _ _ Hg) as [Hing Hidg].
    eexists. split; [exact Hr|]. simpl. split; [reflexivity|].
    pose proof (allPairs_spec _ axisDistanceAgrees_table ec eg Hinc Hing) as Hax.
    unfold axisDistanceAgrees in Hax. rewrite Hd in Hax. apply Qeq_bool_eq in Hax.
    pose proof (intensityDistanceAgrees_all (intensity ec) (intensity eg)) as Hint.
    unfold intensityDistanceAgrees in Hint. apply Qeq_bool_eq in Hint.
    pose proof (allPairs_spec _ distanceLaws_table ec eg Hinc Hing) as Hlaws.
    unfold distanceLaws in Hlaws. apply andb_prop in Hlaws as [_ Hzero].
    apply Bool.eqb_prop in Hzero.
    split; [|split].
    + unfold calculateEmotionDistance. cbv zeta. rewrite Hax, Hint. reflexivity.
    + split; [intros ->; contradiction|intros; contradiction].
    + split; [|intros; contradiction].
      intros H0. apply Qeq_eq_bool in H0. rewrite Hzero in H0. apply String.eqb_eq in H0.
      congruence.
Qed.

Lemma scoring_result_consistent_witness :
  exists r,
    calculatePlutchikScore3Layer "joy_weak" "sadness_strong" defaultMaxScore = Return r /\
    maxScore r = 100%float /\
    totalDistance r == axisDistance r + intensityDistance r * 0.5 /\
    relationship r <> rel_exact.
Proof.
  assert (H1 : isDefined "joy_weak") by (vm_compute; tauto).
  assert (H2 : isDefined "sadness_strong") by (vm_compute; tauto).
  destruct (scoring_result_consistent "joy_weak" "sadness_strong" defaultMaxScore H1 H2)
    as (r & Hr & Hmax & Htot & Hex & _).
  exists r. repeat (split; [assumption|]). intros H. apply Hex in H. discriminate.
Defined.

(** X7.  The score never rewards a worse guess.  Of two guesses for the
    same target, among defined ids and for an integer [maxScore] from 0 to
    [maxChecked], the one whose axis relationship is at least as close
    (exact, same axis, adjacent, distant, opposite) and whose intensity match
    is at least as close (exact, close, far) scores at least as much. *)
Theorem closer_guess_scores_no_less (c g1 g2 : string) (z : Z)
    (r1 r2 : PlutchikScoringResult3Layer) :
  isDefined c -> isDefined g1 -> isDefined g2 -> (0 <= z <= maxChecked)%Z ->
  calculatePlutchikScore3Layer c g1 (Double.ofInteger z) = Return r1 ->
  calculatePlutchikScore3Layer c g2 (Double.ofInteger z) = Return r2 ->
  (relRank (relationship r1) <= relRank (relationship r2))%nat ->
  (imRank (intensityMatch r1) <= imRank (intensityMatch r2))%nat ->
  Double.le (score r2) (score r1) = true.
Proof.
  intros Hc Hg1 Hg2 Hz Hr1 Hr2 Hrel Him.
  set (m := Double.ofInteger z) in *.
  apply isDefined_getEmotionById in Hc as [ec Hc].
  apply isDefined_getEmotionById in Hg1 as [e1 Hg1].
  apply isDefined_getEmotionById in Hg2 as [e2 Hg2].
  destruct (String.eqb_spec c g1) as [<-|Hne1].
  - rewrite (score_of_equal c m ec Hc) in Hr1. injection Hr1 as <-. simpl.
    destruct (String.eqb_spec c g2) as [<-|Hne2].
    + rewrite (score_of_equal c m ec Hc) in Hr2. injection Hr2 as <-.
      now apply integer_score_le_itself.
    + destruct (score_of_distinct c g2 m ec e2 Hc Hg2 Hne2)
        as (d & rel & _ & _ & _ & _ & _ & Hr). rewrite Hr in Hr2. injection Hr2 as <-.
      simpl. now apply baseScore_integer_le_max.
  - destruct (score_of_distinct c g1 m ec e1 Hc Hg1 Hne1)
      as (d1 & rel1 & _ & _ & _ & Hnse & Hnex & Hr). rewrite Hr in Hr1. injection Hr1 as <-.
    simpl in *.
    destruct (String.eqb_spec c g2) as [<-|Hne2].
    + rewrite (score_of_equal c m ec Hc) in Hr2. injection Hr2 as <-. simpl in Hrel.
      destruct rel1; simpl in Hrel; try lia. congruence.
    + destruct (score_of_distinct c g2 m ec e2 Hc Hg2 Hne2)
        as (d2 & rel2 & _ & _ & _ & _ & _ & Hr'). rewrite Hr' in Hr2. injection Hr2 as <-.
      simpl in *. now apply baseScore_integer_antitone.
Qed.

Lemma closer_guess_scores_no_less_witness :
  exists r1 r2,
    calculatePlutchikScore3Layer "joy_strong" "trust_strong" 100 = Return r1 /\
    calculatePlutchikScore3Layer "joy_strong" "fear_weak" 100 = Return r2 /\
    Double.le (score r2) (score r1) = true.
Proof.
  assert (Hc : isDefined "joy_strong") by (vm_compute; tauto).
  assert (H1 : isDefined "trust_strong") by (vm_compute; tauto).
  assert (H2 : isDefined "fear_weak") by (vm_compute; tauto).
  assert (Hz : (0 <= 100 <= maxChecked)%Z) by (unfold maxChecked; lia).
  eexists; eexists. split; [vm_compute; reflexivity|]. split; [vm_compute; reflexivity|].
  apply (closer_guess_scores_no_less "joy_strong" "trust_strong" "fear_weak" 100
           _ _ Hc H1 H2 Hz eq_refl eq_refl); vm_compute; lia.
Defined.

(** X8.  The explanation shown for a score says "perfect match"
    exactly when the guessed id is the target id; any other pair of defined
    ids gets a sentence naming the axis relationship and the intensity
    match. *)
Theorem explanation_exact_iff_same_id (c g : string) (m : double)
    (r : PlutchikScoringResult3Layer) :
  isDefined c -> isDefined g ->
  calculatePlutchikScore3Layer c g m = Return r ->
  (getScoreExplanation r = "完全一致！" <-> c = g) /\
  (c <> g ->
     exists axisPart intensityPart,
       getScoreExplanation r = axisPart +:+ intensityPart /\
       In axisPart ["同じ感情軸"; "隣接する感情軸"; "対極の感情軸"; "離れた感情軸"] /\
       In intensityPart ["、同じ強度"; "、近い強度"; "、離れた強度"]).
Proof.
  intros Hc Hg Hr.
  apply isDefined_getEmotionById in Hc as [ec Hc].
  apply isDefined_getEmotionById in Hg as [eg Hg].
  destruct (String.eqb_spec c g) as [<-|Hne].
  - rewrite (score_of_equal c m ec Hc) in Hr. injection Hr as <-.
    split; [split; reflexivity|intros; contradiction].
  - destruct (score_of_distinct c g m ec eg Hc Hg Hne)
      as (d & rel & _ & _ & _ & _ & Hnex & Hr'). rewrite Hr' in Hr. injection Hr as <-.
    unfold getScoreExplanation. simpl relationship. simpl intensityMatch.
    split.
    + split; [|intros; contradiction].
      destruct rel; try congruence;
        destruct (getIntensityMatch (intensity ec) (intensity eg)); discriminate.
    + intros _.
      destruct rel; try congruence;
        destruct (getIntensityMatch (intensity ec) (intensity eg));
        eexists; eexists; (split; [reflexivity|split; simpl; tauto]).
Qed.

Lemma explanation_exact_iff_same_id_witness :
  exists r,
    calculatePlutchikScore3Layer "anger_weak" "anger_strong" 100 = Return r /\
    getScoreExplanation r <> "完全一致！".
Proof.
  assert (H1 : isDefined "anger_weak") by (vm_compute; tauto).
  assert (H2 : isDefined "anger_strong") by (vm_compute; tauto).
  eexists. split; [vm_compute; reflexivity|].
  intros H.
  apply (explanation_exact_iff_same_id "anger_weak" "anger_strong" 100 _ H1 H2 eq_refl) in H.
  discriminate.
Defined.

(** ** More on the speaker bonus *)

Lemma speakerBonusLoop_throws_iff E values bp :
  forall acc,
    throws (speakerBonusLoop E values bp acc) <->
    List.Exists (fun vote => ~ isDefined E \/ ~ isDefined vote) values.
Proof.
  induction values as [|v rest IH]; intros acc; simpl.
  - split; [intros [msg H]; discriminate|intros H; inversion H].
  - destruct (calculatePlutchikScore3Layer E v bp) as [r|msg] eqn:Hr; simpl.
    + rewrite IH. split; [intros H; now right|].
      intros H. inversion H as [? ? Hbad|? ? Hrest]; subst; [|exact Hrest].
      exfalso.
      assert (Ht : throws (calculatePlutchikScore3Layer E v bp)).
      { unfold throws, calculatePlutchikScore3Layer.
        destruct Hbad as [Hbad|Hbad]; apply not_isDefined_getEmotionById in Hbad;
          rewrite Hbad; [eauto|destruct (getEmotionById E); eauto]. }
      destruct Ht as [msg Ht]. congruence.
    + split; [intros _|intros _; now exists msg].
      left.
      destruct (getEmotionById E) as [e|] eqn:HE;
        [|left; now apply not_isDefined_getEmotionById].
      destruct (getEmotionById v) as [ev|] eqn:Hv;
        [|right; now apply not_isDefined_getEmotionById].
      exfalso.
      destruct (score_returns E v bp) as [r Hret];
        [apply isDefined_getEmotionById; eauto|apply isDefined_getEmotionById; eauto|].
      congruence.
Qed.

(** X9.  [calculateSpeakerBonus3Layer] throws exactly when the record
    holds a vote such that the target or that vote is not a defined emotion
    id.  With a defined target the message names the target and the first
    undefined vote in the order of [Object.values]: the votes under array
    index keys come first, in ascending order, whenever they were cast.  An
    empty record gives bonus 0 whatever the target is. *)
Theorem speaker_bonus_throws_iff (E : string) (votes : list (string * string)) (bp : double) :
  (throws (calculateSpeakerBonus3Layer E votes bp) <->
     List.Exists (fun vote => ~ isDefined E \/ ~ isDefined vote) (Object_values votes)) /\
  calculateSpeakerBonus3Layer E [] bp = Return 0%float /\
  (forall good v rest,
     Object_values votes = (good ++ v :: rest)%list ->
     isDefined E -> Forall isDefined good -> ~ isDefined v ->
     calculateSpeakerBonus3Layer E votes bp =
       Throw ("Invalid emotion IDs: " +:+ E +:+ ", " +:+ v)).
Proof.
  split; [apply speakerBonusLoop_throws_iff|]. split; [reflexivity|].
  intros good v rest Hvalues HE Hgood Hbad. unfold calculateSpeakerBonus3Layer.
  rewrite Hvalues. clear Hvalues. generalize 0%float as acc.
  induction Hgood as [|v0 good Hv0 _ IH]; intros acc.
  - simpl. unfold calculatePlutchikScore3Layer.
    apply isDefined_getEmotionById in HE as [e ->].
    apply not_isDefined_getEmotionById in Hbad. rewrite Hbad. reflexivity.
  - cbn [app speakerBonusLoop]. destruct (score_returns E v0 bp HE Hv0) as [r ->].
    simpl. apply IH.
Qed.

Lemma speaker_bonus_throws_iff_witness :
  calculateSpeakerBonus3Layer "joy_strong"
    [("p1", "joy_strong"); ("b", "bogus1"); ("1", "bogus2")] 10
  = Throw "Invalid emotion IDs: joy_strong, bogus2".
Proof.
  destruct (speaker_bonus_throws_iff "joy_strong"
              [("p1", "joy_strong"); ("b", "bogus1"); ("1", "bogus2")] 10)
    as (_ & _ & Hfirst).
  apply (Hfirst [] "bogus2" ["joy_strong"; "bogus1"]).
  - reflexivity.
  - vm_compute; tauto.
  - constructor.
  - vm_compute. intuition discriminate.
Defined.

(** ** Random voice patterns *)

Section RandomPatterns.
Import VoiceProcessing.

(** An index drawn as [Math.floor(Math.random() * length)] is an index of
    the array. *)
Lemma random_index_defined {A : Type} (l : list A) (random : number) :
  l <> [] -> 0 <= random -> random < 1 ->
  exists x,
    array_get l (Math_floor (random * inject_Z (Z.of_nat (length l)))) = Some x /\ In x l.
Proof.
  intros Hne H0 H1. unfold array_get, Math_floor.
  set (n := Z.of_nat (length l)).
  assert (Hn : (0 < n)%Z) by (unfold n; destruct l; [contradiction|simpl; lia]).
  assert (Hnq : 0 < inject_Z n) by (change 0 with (inject_Z 0); now rewrite <- Zlt_Qlt).
  assert (Hlo : (0 <= Qfloor (random * inject_Z n))%Z).
  { change 0%Z with (Qfloor 0). apply Qfloor_resp_le. apply Qmult_le_0_compat; lra. }
  assert (Hhi : (Qfloor (random * inject_Z n) < n)%Z).
  { rewrite Zlt_Qlt. eapply Qle_lt_trans; [apply Qfloor_le|].
    rewrite <- (Qmult_1_l (inject_Z n)) at 2. apply Qmult_lt_compat_r; assumption. }
  destruct (Z.ltb_spec (Qfloor (random * inject_Z n)) 0) as [|_]; [lia|].
  destruct (nth_error l (Z.to_nat (Qfloor (random * inject_Z n)))) as [x|] eqn:Hnth.
  - exists x. split; [reflexivity|]. eapply nth_error_In; eauto.
  - apply nth_error_None in Hnth. subst n. lia.
Qed.

(** X12.  For an emotion id that has no entry in [EMOTION_REVERSAL_MAP]
    and is not the name of a property inherited from [Object.prototype], and
    a value of [Math.random()] in [0, 1), [getVoiceProcessingForEmotion]
    always returns a pattern (never [undefined]): one of the entries of
    [VOICE_PROCESSING_PATTERNS] other than [emotion_reverse]. *)
Theorem fallback_pattern_from_table (random : number) (emotionId : string) :
  EMOTION_REVERSAL_MAP !! emotionId = None -> ~ In emotionId Object_prototype_keys ->
  0 <= random -> random < 1 ->
  exists cfg,
    getVoiceProcessingForEmotion random emotionId = Some cfg /\
    In (pattern cfg, cfg) VOICE_PROCESSING_PATTERNS /\
    pattern cfg <> emotion_reverse.
Proof.
  intros Hnone _ H0 H1. unfold getVoiceProcessingForEmotion. rewrite Hnone.
  set (patterns := List.filter _ _).
  destruct (random_index_defined patterns random) as (cfg & Hget & Hin);
    [discriminate|assumption|assumption|].
  exists cfg. split; [exact Hget|].
  vm_compute in Hin.
  repeat (destruct Hin as [<-|Hin]; [split; [vm_compute; tauto|discriminate]|]).
  destruct Hin.
Qed.

Lemma fallback_pattern_from_table_witness :
  exists cfg,
    getVoiceProcessingForEmotion (3 # 4) "happiness" = Some cfg /\
    pattern cfg <> emotion_reverse.
Proof.
  destruct (fallback_pattern_from_table (3 # 4) "happiness") as (cfg & Hget & _ & Hne).
  - vm_compute. reflexivity.
  - vm_compute. intuition discriminate.
  - vm_compute. discriminate.
  - vm_compute. reflexivity.
  - exists cfg. split; assumption.
Defined.

(** X13.  For a value of [Math.random()] in [0, 1),
    [getRandomVoiceProcessingPattern] always returns one of the five entries
    of [VOICE_PROCESSING_PATTERNS]; from 0.8 on it is the [emotion_reverse]
    entry as the table holds it, with pitch 0 and tempo 1, that is, with no
    change to the voice. *)
Theorem random_pattern_from_table (random : number) :
  0 <= random -> random < 1 ->
  exists cfg,
    getRandomVoiceProcessingPattern random = Some cfg /\
    In (pattern cfg, cfg) VOICE_PROCESSING_PATTERNS /\
    (0.8 <= random ->
       pattern cfg = emotion_reverse /\ pitch cfg = 0 /\ tempo cfg = 1) /\
    (random < 0.8 -> pattern cfg <> emotion_reverse).
Proof.
  intros H0 H1. unfold getRandomVoiceProcessingPattern.
  set (patterns := List.map snd VOICE_PROCESSING_PATTERNS).
  change (inject_Z (Z.of_nat (length patterns))) with 5.
  unfold array_get, Math_floor.
  assert (Hlo : (0 <= Qfloor (random * 5))%Z).
  { change 0%Z with (Qfloor 0). apply Qfloor_resp_le. lra. }
  assert (Hhi : (Qfloor (random * 5) < 5)%Z).
  { rewrite Zlt_Qlt. eapply Qle_lt_trans; [apply Qfloor_le|]. change (inject_Z 5) with 5. lra. }
  assert (Hlast : 0.8 <= random -> Qfloor (random * 5) = 4%Z).
  { intros Hbig. assert ((4 <= Qfloor (random * 5))%Z); [|lia].
    change 4%Z with (Qfloor 4). apply Qfloor_resp_le. lra. }
  assert (Hfirst : random < 0.8 -> (Qfloor (random * 5) < 4)%Z).
  { intros Hsmall. rewrite Zlt_Qlt. eapply Qle_lt_trans; [apply Qfloor_le|].
    change (inject_Z 4) with 4. lra. }
  destruct (Z.ltb_spec (Qfloor (random * 5)) 0) as [|_]; [lia|].
  assert (Hcases : Qfloor (random * 5) = 0%Z \/ Qfloor (random * 5) = 1%Z \/
                   Qfloor (random * 5) = 2%Z \/ Qfloor (random * 5) = 3%Z \/
                   Qfloor (random * 5) = 4%Z) by lia.
  destruct Hcases as [Hc | [Hc | [Hc | [Hc | Hc]]]]; rewrite Hc in *; simpl;
    eexists; (split; [reflexivity|]); (split; [simpl; tauto|]); simpl;
    (split; [intros Hbig; specialize (Hlast Hbig); try discriminate; repeat split
            |intros Hsmall; specialize (Hfirst Hsmall); try lia; discriminate]).
Qed.

Lemma random_pattern_from_table_witness :
  exists cfg,
    getRandomVoiceProcessingPattern (9 # 10) = Some cfg /\
    pattern cfg = emotion_reverse /\ pitch cfg = 0 /\ tempo cfg = 1.
Proof.
  destruct (random_pattern_from_table (9 # 10)) as (cfg & Hget & _ & Hlast & _).
  - vm_compute. discriminate.
  - vm_compute. reflexivity.
  - exists cfg. split; [exact Hget|]. apply Hlast. vm_compute. discriminate.
Defined.

Lemma reversal_of_id_is_reversal_of_axis e :
  In e PLUTCHIK_EMOTIONS_3_LAYER ->
  exists entry,
    EMOTION_REVERSAL_MAP !! id e = Some entry /\
    EMOTION_REVERSAL_MAP !! axis e = Some entry.
Proof.
  intros He. unfold PLUTCHIK_EMOTIONS_3_LAYER in He.
  repeat (destruct He as [<-|He]; [eexists; split; vm_compute; reflexivity|]).
  destruct He.
Qed.

(** X14.  The voice reversal depends on the axis only: for each of the 24
    defined emotions, and whatever [Math.random] returns,
    [getVoiceProcessingForEmotion] gives the emotion id and its axis name the
    [emotion_reverse] pattern with the same pitch and the same tempo
    (the intensity is not taken into account). *)
Theorem reversal_depends_on_axis_only (e : PlutchikEmotion) (random1 random2 : number) :
  In e PLUTCHIK_EMOTIONS_3_LAYER ->
  exists byId byAxis,
    getVoiceProcessingForEmotion random1 (id e) = Some byId /\
    getVoiceProcessingForEmotion random2 (axis e) = Some byAxis /\
    pattern byId = emotion_reverse /\ pattern byAxis = emotion_reverse /\
    pitch byId = pitch byAxis /\ tempo byId = tempo byAxis.
Proof.
  intros He. destruct (reversal_of_id_is_reversal_of_axis e He) as (entry & Hid & Hax).
  unfold getVoiceProcessingForEmotion. rewrite Hid, Hax.
  eexists; eexists. repeat split.
Qed.

Lemma reversal_depends_on_axis_only_witness :
  exists byId byAxis,
    getVoiceProcessingForEmotion 0 "surprise_weak" = Some byId /\
    getVoiceProcessingForEmotion 0 "surprise" = Some byAxis /\
    pitch byId = pitch byAxis /\ tempo byId = tempo byAxis.
Proof.
  pose (e := mk "surprise_weak" "surprise" weak "放心" "Distraction" "#B6E2FF" 135 "😐").
  assert (He : In e PLUTCHIK_EMOTIONS_3_LAYER) by (vm_compute; tauto).
  destruct (reversal_depends_on_axis_only e 0 0 He)
    as (byId & byAxis & H1 & H2 & _ & _ & Hp & Ht).
  exists byId, byAxis. auto.
Defined.

End RandomPatterns.

(** ** More on the player storage *)

Section PlayerStorageMore.
Import PlayerStorage.

Lemma keys_differ : PLAYER_ID_KEY <> PLAYER_NAME_KEY.
Proof. discriminate. Qed.

Lemma repeatGetOrCreate_no_window k :
  forall env, hasWindow env = false ->
    fst (repeatGetOrCreate k env) = List.map (uuids env) (seq (drawn env) k) /\
    hasWindow (snd (repeatGetOrCreate k env)) = false /\
    localStorage (snd (repeatGetOrCreate k env)) = localStorage env /\
    uuids (snd (repeatGetOrCreate k env)) = uuids env /\
    drawn (snd (repeatGetOrCreate k env)) = (drawn env + k)%nat.
Proof.
  induction k as [|k IH]; intros env Hw; simpl.
  - repeat split; [assumption|lia].
  - unfold getOrCreatePlayerId. rewrite Hw. simpl.
    set (env1 := {| hasWindow := hasWindow env; localStorage := localStorage env;
                    uuids := uuids env; drawn := S (drawn env) |}).
    destruct (IH env1 Hw) as (Hids & Hw' & Hls & Hu & Hd).
    destruct (repeatGetOrCreate k env1) as [ids env2]. simpl in *.
    rewrite Hids. repeat split; try assumption. lia.
Qed.

(** X15.  Where [window] is undefined (server-side rendering) nothing is
    persisted: successive calls of [getOrCreatePlayerId] return successive
    results of [crypto.randomUUID], a new id every time, and leave
    [localStorage] alone; [getPlayerId] and [getSavedPlayerName] return
    [null]; [savePlayerName] and [clearPlayerInfo] do nothing. *)
Theorem no_window_nothing_persisted (env : Env) (k : nat) (name : string) :
  hasWindow env = false ->
  fst (repeatGetOrCreate k env) = List.map (uuids env) (seq (drawn env) k) /\
  localStorage (snd (repeatGetOrCreate k env)) = localStorage env /\
  getPlayerId (snd (repeatGetOrCreate k env)) = None /\
  getPlayerId env = None /\ getSavedPlayerName env = None /\
  savePlayerName name env = env /\ clearPlayerInfo env = env.
Proof.
  intros Hw. destruct (repeatGetOrCreate_no_window k env Hw) as (Hids & Hw' & Hls & _).
  unfold getPlayerId, getSavedPlayerName, savePlayerName, clearPlayerInfo.
  rewrite Hw, Hw'. repeat split; assumption.
Qed.

Lemma no_window_nothing_persisted_witness :
  fst (repeatGetOrCreate 2
         {| hasWindow := false; localStorage := ∅;
            uuids := uuids Samples.freshBrowser; drawn := 0 |})
  = ["3b241101-e2bb-4255-8caf-4136c566a962"; "9f0c2f7e-5d1a-4c3b-8e2a-7b6d5c4e3f21"].
Proof.
  exact (proj1 (no_window_nothing_persisted
                  {| hasWindow := false; localStorage := ∅;
                     uuids := uuids Samples.freshBrowser; drawn := 0 |} 2 "A" eq_refl)).
Defined.

(** X16.  In the browser [clearPlayerInfo] forgets the player: afterwards
    [getPlayerId] and [getSavedPlayerName] return [null], every other key of
    [localStorage] is as before, and the next [getOrCreatePlayerId] returns
    the next result of [crypto.randomUUID] and persists it. *)
Theorem clear_then_new_identity (env : Env) :
  hasWindow env = true ->
  getPlayerId (clearPlayerInfo env) = None /\
  getSavedPlayerName (clearPlayerInfo env) = None /\
  (forall key, key <> PLAYER_ID_KEY -> key <> PLAYER_NAME_KEY ->
     localStorage (clearPlayerInfo env) !! key = localStorage env !! key) /\
  exists env',
    getOrCreatePlayerId (clearPlayerInfo env) = (uuids env (drawn env), env') /\
    localStorage env' !! PLAYER_ID_KEY = Some (uuids env (drawn env)) /\
    drawn env' = S (drawn env).
Proof.
  intros Hw. unfold clearPlayerInfo, getPlayerId, getSavedPlayerName, getOrCreatePlayerId,
    localStorage_getItem, localStorage_removeItem, createAndStore.
  repeat (rewrite Hw; simpl).
  rewrite lookup_delete_ne by (apply not_eq_sym, keys_differ).
  rewrite !lookup_delete_eq.
  split; [reflexivity|]. split; [reflexivity|]. split.
  - intros key H1 H2. rewrite !lookup_delete_ne by congruence. reflexivity.
  - eexists. split; [reflexivity|]. simpl. rewrite lookup_insert_eq. split; reflexivity.
Qed.

Lemma clear_then_new_identity_witness :
  exists env1 env2,
    getOrCreatePlayerId Samples.freshBrowser =
      ("3b241101-e2bb-4255-8caf-4136c566a962", env1) /\
    getOrCreatePlayerId (clearPlayerInfo env1) =
      ("9f0c2f7e-5d1a-4c3b-8e2a-7b6d5c4e3f21", env2).
Proof.
  eexists. 
  destruct (clear_then_new_identity (snd (getOrCreatePlayerId Samples.freshBrowser)) eq_refl)
    as (_ & _ & _ & env2 & Hnew & _).
  exists env2. split; [reflexivity|exact Hnew].
Defined.

(** X17.  In the browser the saved player name reads back as written, the
    last name written wins, and name and id do not disturb each other:
    [savePlayerName] leaves the player id as it is, and
    [getOrCreatePlayerId] leaves the saved name as it is. *)
Theorem player_name_round_trip (env : Env) (name1 name2 : string) :
  hasWindow env = true ->
  getSavedPlayerName (savePlayerName name1 env) = Some name1 /\
  savePlayerName name2 (savePlayerName name1 env) = savePlayerName name2 env /\
  getPlayerId (savePlayerName name1 env) = getPlayerId env /\
  getSavedPlayerName (snd (getOrCreatePlayerId env)) = getSavedPlayerName env.
Proof.
  intros Hw. unfold getSavedPlayerName, savePlayerName, getPlayerId, getOrCreatePlayerId,
    localStorage_getItem, localStorage_setItem, createAndStore.
  repeat (rewrite Hw; simpl).
  split; [apply lookup_insert_eq|]. split; [now rewrite insert_insert_eq|].
  split; [apply lookup_insert_ne, not_eq_sym, keys_differ|].
  destruct (localStorage env !! PLAYER_ID_KEY) as [stored|] eqn:Hget.
  - destruct (truthy_string stored); simpl; rewrite ?Hw; simpl; [reflexivity|].
    apply lookup_insert_ne, keys_differ.
  - simpl. rewrite ?Hw. simpl. apply lookup_insert_ne, keys_differ.
Qed.

Lemma player_name_round_trip_witness :
  getSavedPlayerName (savePlayerName "B" (savePlayerName "A" Samples.freshBrowser)) = Some "B".
Proof.
  destruct (player_name_round_trip Samples.freshBrowser "A" "B" eq_refl) as (_ & Hlast & _).
  rewrite Hlast.
  exact (proj1 (player_name_round_trip Samples.freshBrowser "B" "B" eq_refl)).
Defined.

(** X18.  [getOrCreatePlayerId] touches no [localStorage] key but the
    player id key and draws at most one UUID.  It draws none exactly when, in
    the browser, a non-empty id is stored; a stored empty string counts as no
    id and is overwritten by a new one. *)
Theorem getOrCreatePlayerId_footprint (env env' : Env) (playerId : string) :
  getOrCreatePlayerId env = (playerId, env') ->
  (forall key, key <> PLAYER_ID_KEY -> localStorage env' !! key = localStorage env !! key) /\
  hasWindow env' = hasWindow env /\ uuids env' = uuids env /\
  (drawn env' = drawn env \/
   drawn env' = S (drawn env) /\ playerId = uuids env (drawn env)) /\
  (drawn env' = drawn env <->
     hasWindow env = true /\
     exists stored, localStorage env !! PLAYER_ID_KEY = Some stored /\ stored <> "") /\
  (hasWindow env = true -> localStorage env !! PLAYER_ID_KEY = Some "" ->
     localStorage env' !! PLAYER_ID_KEY = Some (uuids env (drawn env))).
Proof.
  unfold getOrCreatePlayerId, localStorage_getItem, createAndStore.
  destruct (hasWindow env) eqn:Hw; simpl.
  - destruct (localStorage env !! PLAYER_ID_KEY) as [stored|] eqn:Hget.
    + destruct (truthy_string stored) eqn:Ht.
      * intros [= <- <-].
        split; [reflexivity|]. split; [assumption|]. split; [reflexivity|].
        split; [now left|]. split; [|intros _ [= ->]; discriminate].
        split; [intros _|reflexivity].
        split; [reflexivity|]. exists stored. split; [reflexivity|now apply truthy_string_ne].
      * intros [= <- <-]. simpl.
        assert (stored = "") as ->.
        { unfold truthy_string in Ht. apply negb_false_iff in Ht. now apply String.eqb_eq. }
        split; [intros key Hk; apply lookup_insert_ne; congruence|].
        split; [assumption|]. split; [reflexivity|].
        split; [right; split; reflexivity|]. split; [|intros _ _; apply lookup_insert_eq].
        split; [lia|]. intros (_ & s0 & [= <-] & Hs). contradiction.
    + intros [= <- <-]. simpl.
      split; [intros key Hk; apply lookup_insert_ne; congruence|].
      split; [assumption|]. split; [reflexivity|].
      split; [right; split; reflexivity|]. split; [|intros _ Hs; discriminate].
      split; [lia|]. intros (_ & s0 & Hs & _). discriminate.
  - intros [= <- <-]. simpl.
    split; [reflexivity|]. split; [assumption|]. split; [reflexivity|].
    split; [right; split; reflexivity|]. split; [|intros Habs; discriminate].
    split; [lia|]. intros (Habs & _). discriminate.
Qed.

Lemma getOrCreatePlayerId_footprint_witness :
  exists env',
    getOrCreatePlayerId
      {| hasWindow := true; localStorage := <[PLAYER_ID_KEY := ""]> ∅;
         uuids := uuids Samples.freshBrowser; drawn := 0 |}
    = ("3b241101-e2bb-4255-8caf-4136c566a962", env') /\
    localStorage env' !! PLAYER_ID_KEY = Some "3b241101-e2bb-4255-8caf-4136c566a962".
Proof.
  pose (env0 := {| hasWindow := true; localStorage := <[PLAYER_ID_KEY := ""]> ∅;
                   uuids := uuids Samples.freshBrowser; drawn := 0 |}).
  assert (Hcall : getOrCreatePlayerId env0 =
                    ("3b241101-e2bb-4255-8caf-4136c566a962",
                     snd (getOrCreatePlayerId env0))) by reflexivity.
  destruct (getOrCreatePlayerId_footprint env0 _ _ Hcall) as (_ & _ & _ & _ & _ & Hempty).
  exists (snd (getOrCreatePlayerId env0)). split; [exact Hcall|].
  apply Hempty; reflexivity.
Defined.

End PlayerStorageMore.

(** ** The API URL *)

Section ApiUrl.
Import Api.

Lemma append_cons (ch : Ascii.ascii) (a b : string) :
  String ch a +:+ b = String ch (a +:+ b).
Proof. reflexivity. Qed.

Lemma append_assoc3 (a b c : string) : (a +:+ b) +:+ c = a +:+ (b +:+ c).
Proof.
  induction a as [|ch a IH]; [reflexivity|]. rewrite !append_cons. now rewrite IH.
Qed.

Lemma dynamicUrl_port env : endsWith (dynamicUrl env) ":8000".
Proof.
  unfold dynamicUrl, developmentDefault.
  destruct (window env) as [location|]; [|now exists "http://localhost"].
  destruct (negb _ && negb _); [|now exists "http://localhost"].
  exists (protocol location +:+ "//" +:+ hostname location).
  now rewrite !append_assoc3.
Qed.

(** X19.  A non-empty [NEXT_PUBLIC_API_URL] is returned as it is, in the
    browser and on the server.  Without it the URL always ends in [:8000]: it
    is [http://localhost:8000] when there is no [window] or the page is
    served from [localhost] or [127.0.0.1], and the page's own protocol and
    host name otherwise.  The socket client uses the same URL in the browser,
    but on the server it uses [http://localhost:8000] even when
    [NEXT_PUBLIC_API_URL] is set. *)
Theorem api_url_selection (env : Env) :
  (forall url, NEXT_PUBLIC_API_URL env = Some url -> url <> "" -> getApiUrl env = url) /\
  (NEXT_PUBLIC_API_URL env = None \/ NEXT_PUBLIC_API_URL env = Some "" ->
     endsWith (getApiUrl env) ":8000" /\
     (window env = None -> getApiUrl env = "http://localhost:8000") /\
     (forall location, window env = Some location ->
        (hostname location = "localhost" \/ hostname location = "127.0.0.1" ->
           getApiUrl env = "http://localhost:8000") /\
        (hostname location <> "localhost" -> hostname location <> "127.0.0.1" ->
           getApiUrl env = protocol location +:+ "//" +:+ hostname location +:+ ":8000"))) /\
  (window env <> None -> socketClientUrl env = getApiUrl env) /\
  (window env = None -> socketClientUrl env = "http://localhost:8000").
Proof.
  split; [|split; [|split]].
  - intros url Hurl Hne. unfold getApiUrl. rewrite Hurl.
    unfold truthy_string. destruct (String.eqb_spec url ""); [contradiction|reflexivity].
  - intros Hunset.
    assert (Hdyn : getApiUrl env = dynamicUrl env).
    { unfold getApiUrl. destruct Hunset as [-> | ->]; reflexivity. }
    rewrite Hdyn. split; [apply dynamicUrl_port|]. unfold dynamicUrl. split.
    + intros ->. reflexivity.
    + intros location ->. split.
      * intros [-> | ->]; reflexivity.
      * intros H1 H2.
        destruct (String.eqb_spec (hostname location) "localhost"); [contradiction|].
        destruct (String.eqb_spec (hostname location) "127.0.0.1"); [contradiction|].
        reflexivity.
  - unfold socketClientUrl. destruct (window env); [reflexivity|congruence].
  - unfold socketClientUrl. intros ->. reflexivity.
Qed.

Lemma api_url_selection_witness :
  getApiUrl {| NEXT_PUBLIC_API_URL := None;
               window := Some {| protocol := "https:"; hostname := "emoguchi.example" |} |}
  = "https://emoguchi.example:8000" /\
  socketClientUrl {| NEXT_PUBLIC_API_URL := Some "https://api.example"; window := None |}
  = "http://localhost:8000".
Proof.
  split.
  - destruct (api_url_selection
                {| NEXT_PUBLIC_API_URL := None;
                   window := Some {| protocol := "https:"; hostname := "emoguchi.example" |} |})
      as (_ & Hunset & _).
    destruct (Hunset (or_introl eq_refl)) as (_ & _ & Hbrowser).
    destruct (Hbrowser _ eq_refl) as (_ & Hother).
    apply Hother; discriminate.
  - apply (api_url_selection
             {| NEXT_PUBLIC_API_URL := Some "https://api.example"; window := None |}).
    reflexivity.
Defined.

End ApiUrl.

(** ** Invariants and frames of the game store *)

Section StoreInvariants.
Import Game GameStore UseSocket.

(** The store value the callbacks close over. *)
Variable store : State.

Lemma on_room_state_frame data s :
  lastResult (on_room_state data s) = lastResult s /\
  speakerEmotion (on_room_state data s) = speakerEmotion s /\
  isConnected (on_room_state data s) = isConnected s /\
  playerVote (on_room_state data s) = playerVote s /\
  gameComplete (on_room_state data s) =
    (if GamePhase_eqb (phase data) waiting then None else gameComplete s) /\
  audioUrl (on_room_state data s) =
    (if GamePhase_eqb (phase data) waiting then None else audioUrl s).
Proof. unfold on_room_state. destruct (GamePhase_eqb (phase data) waiting); repeat split. Qed.

Lemma on_round_result_frame data s :
  lastResult (on_round_result store data s) = Some data /\
  speakerEmotion (on_round_result store data s) = None /\
  playerVote (on_round_result store data s) = None /\
  isConnected (on_round_result store data s) = isConnected s /\
  gameComplete (on_round_result store data s) = gameComplete s /\
  audioUrl (on_round_result store data s) = audioUrl s.
Proof.
  unfold on_round_result. destruct (is_true (isGameComplete data)); [repeat split|].
  destruct (roomState store); repeat split.
Qed.

Lemma on_game_complete_frame data s :
  lastResult (on_game_complete store data s) = lastResult s /\
  speakerEmotion (on_game_complete store data s) = speakerEmotion s /\
  isConnected (on_game_complete store data s) = isConnected s /\
  currentRound (on_game_complete store data s) = currentRound s /\
  voteTimer (on_game_complete store data s) = voteTimer s /\
  audioUrl (on_game_complete store data s) = audioUrl s /\
  exists g, gameComplete (on_game_complete store data s) = Some g /\ isComplete g = true.
Proof.
  unfold on_game_complete. destruct (roomState store); repeat split; eexists; split; reflexivity.
Qed.

Lemma on_audio_received_frame data objectUrl s :
  lastResult (on_audio_received data objectUrl s) = lastResult s /\
  speakerEmotion (on_audio_received data objectUrl s) = speakerEmotion s /\
  isConnected (on_audio_received data objectUrl s) = isConnected s /\
  currentRound (on_audio_received data objectUrl s) = currentRound s /\
  gameComplete (on_audio_received data objectUrl s) = gameComplete s /\
  roomState (on_audio_received data objectUrl s) = roomState s /\
  audioUrl (on_audio_received data objectUrl s) =
    match objectUrl with Some url => Some url | None => audioUrl s end.
Proof.
  unfold on_audio_received. destruct objectUrl as [url|]; [|repeat split].
  destruct (timerInfo data) as [[t n]|]; repeat split.
Qed.

Lemma handle_timerWellFormed s e :
  timerWellFormed s -> timerWellFormed (handle store s e).
Proof.
  unfold timerWellFormed. intros Hwf.
  destruct e; simpl; try exact Hwf; try discriminate.
  - destruct (on_room_state_roomState data s) as (_ & _ & ->). exact Hwf.
  - destruct (on_round_result_fields store data s) as (_ & Hoff & _).
    unfold timerActive in Hoff. rewrite Hoff. discriminate.
  - destruct (on_game_complete_frame data s) as (_ & _ & _ & _ & -> & _). exact Hwf.
  - rewrite on_audio_received_timer.
    destruct objectUrl as [url|]; [|exact Hwf].
    destruct (timerInfo data) as [[t n]|] eqn:Hinfo; [|exact Hwf].
    intros _. exists t. simpl. split; [reflexivity|].
    unfold timerInfo in Hinfo.
    destruct (voting_started_at data) as [t'|]; [|discriminate].
    destruct (vote_timeout_seconds data) as [n'|]; [|discriminate].
    destruct (truthy_string t') eqn:Htt; [|discriminate].
    destruct (truthy_number n') eqn:Htn; [|discriminate].
    simpl in Hinfo. injection Hinfo as <- <-. split; assumption.
Qed.

(** X20.  In the initial store and after every sequence of events from a
    store where it holds, an active vote timer has a non-empty start time
    and a timeout different from 0: the handlers never activate the timer
    without both. *)
Theorem active_timer_has_start_and_timeout (s : State) (events : list Event) :
  timerWellFormed initialState /\
  (timerWellFormed s -> timerWellFormed (run store s events)).
Proof.
  split; [unfold timerWellFormed; simpl; discriminate|].
  revert s. induction events as [|e rest IH]; intros s Hwf; [exact Hwf|].
  simpl. apply IH. now apply handle_timerWellFormed.
Qed.

Lemma handle_roundHidesEmotion s e :
  roundHidesEmotion s -> roundHidesEmotion (handle store s e).
Proof.
  unfold roundHidesEmotion. intros Hh.
  destruct e; simpl; try exact Hh; try discriminate.
  - destruct (on_room_state_roomState data s) as (_ & -> & _). exact Hh.
  - intros round [= <-]. simpl. split; [reflexivity|discriminate].
  - destruct (on_round_result_fields store data s) as (-> & _). discriminate.
  - destruct (on_game_complete_frame data s) as (_ & _ & _ & -> & _). exact Hh.
  - destruct (on_audio_received_frame data objectUrl s) as (_ & _ & _ & -> & _). exact Hh.
Qed.

(** X21.  The target emotion never sits in the round the store holds: in
    the initial store and after every sequence of events, a [currentRound],
    if present, has the empty [emotion_id] and a defined list of voting
    choices (the speaker learns the emotion through [speakerEmotion]
    only). *)
Theorem current_round_hides_emotion (s : State) (events : list Event) :
  roundHidesEmotion initialState /\
  (roundHidesEmotion s -> roundHidesEmotion (run store s events)).
Proof.
  split; [unfold roundHidesEmotion; simpl; discriminate|].
  revert s. induction events as [|e rest IH]; intros s Hh; [exact Hh|].
  simpl. apply IH. now apply handle_roundHidesEmotion.
Qed.

(** X22.  The connection flag of the store changes only when [connect]
    (to true), [disconnect] (to false) or [left_room] (to false, by the
    reset of the store) is processed. *)
Theorem connection_flag_changes_only_by (s : State) (e : Event) :
  isConnected (handle store s e) <> isConnected s ->
  (e = connect /\ isConnected (handle store s e) = true) \/
  (e = disconnect /\ isConnected (handle store s e) = false) \/
  (exists message, e = left_room message /\ isConnected (handle store s e) = false).
Proof.
  intros Hchange.
  destruct e; simpl in *; try (exfalso; apply Hchange; reflexivity); auto.
  - exfalso. apply Hchange. apply on_room_state_frame.
  - right. right. eauto.
  - exfalso. apply Hchange. apply on_round_result_frame.
  - exfalso. apply Hchange. apply on_game_complete_frame.
  - exfalso. apply Hchange. apply on_audio_received_frame.
Qed.

(** X23.  The result of the last round stays on display until the next
    round starts: [lastResult] changes only when [round_result] sets it to
    the payload received, or [round_start] or [left_room] clears it; a
    [room_state] broadcast never clears it. *)
Theorem last_result_changes_only_by (s : State) (e : Event) :
  lastResult (handle store s e) <> lastResult s ->
  (exists data, e = round_result data /\ lastResult (handle store s e) = Some data) \/
  (exists data, e = round_start data /\ lastResult (handle store s e) = None) \/
  (exists message, e = left_room message /\ lastResult (handle store s e) = None).
Proof.
  intros Hchange.
  destruct e; simpl in *; try (exfalso; apply Hchange; reflexivity); eauto.
  - exfalso. apply Hchange. apply on_room_state_frame.
  - left. exists data. split; [reflexivity|apply on_round_result_frame].
  - exfalso. apply Hchange. apply on_game_complete_frame.
  - exfalso. apply Hchange. apply on_audio_received_frame.
Qed.

(** X24.  The audio of a round is played from the URL made on
    [audio_received] and is dropped when the next round starts: [audioUrl]
    changes only when [audio_received] installs the URL it could make, or
    when [round_start], a [room_state] broadcast with phase [waiting], or
    [left_room] clears it.  An [audio_received] whose audio cannot be turned
    into a URL leaves the previous audio in place. *)
Theorem audio_url_changes_only_by (s : State) (e : Event) :
  audioUrl (handle store s e) <> audioUrl s ->
  (exists data url, e = audio_received data (Some url) /\
                    audioUrl (handle store s e) = Some url) \/
  (exists data, e = round_start data /\ audioUrl (handle store s e) = None) \/
  (exists data, e = room_state data /\ phase data = waiting /\
                audioUrl (handle store s e) = None) \/
  (exists message, e = left_room message /\ audioUrl (handle store s e) = None).
Proof.
  intros Hchange.
  destruct e; simpl in *; try (exfalso; apply Hchange; reflexivity).
  - right. right. left. exists data.
    destruct (on_room_state_frame data s) as (_ & _ & _ & _ & _ & Haudio).
    rewrite Haudio in *.
    destruct (phase data); simpl in *; try (exfalso; apply Hchange; reflexivity).
    repeat split.
  - right. right. right. eauto.
  - right. left. eauto.
  - exfalso. apply Hchange. apply on_round_result_frame.
  - exfalso. apply Hchange. apply on_game_complete_frame.
  - left. destruct (on_audio_received_frame data objectUrl s)
      as (_ & _ & _ & _ & _ & _ & Haudio).
    rewrite Haudio in *. destruct objectUrl as [url|]; [eauto|].
    exfalso. apply Hchange. reflexivity.
Qed.

(** X25.  The emotion shown to the speaker changes only when
    [speaker_emotion] sets it, to the localized [emotion] of the payload when
    that is a non-empty string and to its [emotionId] otherwise, or when
    [round_result] or [left_room] clears it; [round_start] leaves it as it
    is. *)
Theorem speaker_emotion_changes_only_by (s : State) (e : Event) :
  speakerEmotion (handle store s e) <> speakerEmotion s ->
  (exists data, e = speaker_emotion data /\
     speakerEmotion (handle store s e) =
       match se_emotion data with
       | Some emotion => if String.eqb emotion "" then se_emotionId data else Some emotion
       | None => se_emotionId data
       end) \/
  (exists data, e = round_result data /\ speakerEmotion (handle store s e) = None) \/
  (exists message, e = left_room message /\ speakerEmotion (handle store s e) = None).
Proof.
  intros Hchange.
  destruct e; simpl in *; try (exfalso; apply Hchange; reflexivity); eauto.
  - exfalso. apply Hchange. apply on_room_state_frame.
  - left. exists data. split; [reflexivity|].
    unfold on_speaker_emotion, or_string, truthy_string. simpl.
    destruct (se_emotion data) as [emotion|]; [|reflexivity].
    destruct (String.eqb emotion ""); reflexivity.
  - right. left. exists data. split; [reflexivity|apply on_round_result_frame].
  - exfalso. apply Hchange. apply on_game_complete_frame.
  - exfalso. apply Hchange. apply on_audio_received_frame.
Qed.

(** X26.  The final ranking stays in the store until the game restarts or
    the player leaves: [gameComplete] changes only when [game_complete]
    installs a ranking (always marked complete), or when a [room_state]
    broadcast with phase [waiting] or [left_room] clears it. *)
Theorem game_complete_changes_only_by (s : State) (e : Event) :
  gameComplete (handle store s e) <> gameComplete s ->
  (exists data g, e = game_complete data /\
                  gameComplete (handle store s e) = Some g /\ isComplete g = true) \/
  (exists data, e = room_state data /\ phase data = waiting /\
                gameComplete (handle store s e) = None) \/
  (exists message, e = left_room message /\ gameComplete (handle store s e) = None).
Proof.
  intros Hchange.
  destruct e; simpl in *; try (exfalso; apply Hchange; reflexivity).
  - right. left. exists data.
    destruct (on_room_state_frame data s) as (_ & _ & _ & _ & Hgame & _).
    rewrite Hgame in *.
    destruct (phase data); simpl in *; try (exfalso; apply Hchange; reflexivity).
    repeat split.
  - right. right. eauto.
  - exfalso. apply Hchange. apply on_round_result_frame.
  - left. destruct (on_game_complete_frame data s) as (_ & _ & _ & _ & _ & _ & g & Hg & Hc).
    exists data, g. auto.
  - exfalso. apply Hchange. apply on_audio_received_frame.
Qed.

Lemma handle_roomState_no_capture s e :
  roomState store = None ->
  roomState (handle store s e) = lastBroadcast (roomState s) [e].
Proof.
  intros Hnone. destruct e; simpl; try reflexivity.
  - apply on_room_state_roomState.
  - destruct (on_round_result_fields store data s) as (_ & _ & ->). rewrite Hnone.
    now destruct (is_true (isGameComplete data)).
  - rewrite on_game_complete_roomState, Hnone. reflexivity.
  - apply on_audio_received_frame.
Qed.

Lemma lastBroadcast_step current e rest :
  lastBroadcast current (e :: rest) = lastBroadcast (lastBroadcast current [e]) rest.
Proof. destruct e; reflexivity. Qed.

(** X27.  When the callbacks were registered on a store without a room
    state, the room state the client holds is at all times what the server
    last broadcast: the payload of the last [room_state] event, or nothing
    after [left_room]; [round_result] and [game_complete] do not touch it.
    When they were registered on a store holding room state [r0], the
    [round_result] of a continuing game and [game_complete] put [r0] back,
    with phase [waiting] or [closed], whatever was broadcast since. *)
Theorem room_state_follows_broadcasts (s : State) (events : list Event) :
  (roomState store = None ->
     roomState (run store s events) = lastBroadcast (roomState s) events) /\
  (forall r0 data, roomState store = Some r0 ->
     (is_true (isGameComplete data) = false ->
        roomState (handle store (run store s events) (round_result data))
          = Some (with_phase r0 waiting)) /\
     (forall final,
        roomState (handle store (run store s events) (game_complete final))
          = Some (with_phase r0 closed))).
Proof.
  split.
  - intros Hnone. revert s. induction events as [|e rest IH]; intros s; [reflexivity|].
    simpl run. unfold run in *. simpl fold_left. rewrite IH.
    rewrite (lastBroadcast_step (roomState s) e rest).
    now rewrite handle_roomState_no_capture.
  - intros r0 data Hheld. split.
    + intros Hcontinue. simpl.
      destruct (on_round_result_fields store data (run store s events)) as (_ & _ & ->).
      now rewrite Hcontinue, Hheld.
    + intros final. simpl. now rewrite on_game_complete_roomState, Hheld.
Qed.

End StoreInvariants.

(** *** The invariants and frames at work *)

Lemma active_timer_has_start_and_timeout_witness :
  timerWellFormed
    (UseSocket.mounted GameStore.initialState
       [UseSocket.round_start Samples.roundStart1;
        UseSocket.audio_received Samples.audio1 (Some "blob:emoguchi/1")]).
Proof.
  destruct (active_timer_has_start_and_timeout GameStore.initialState GameStore.initialState
              [UseSocket.round_start Samples.roundStart1;
               UseSocket.audio_received Samples.audio1 (Some "blob:emoguchi/1")])
    as [Hinit Hrun].
  exact (Hrun Hinit).
Defined.

Lemma current_round_hides_emotion_witness :
  roundHidesEmotion
    (UseSocket.mounted GameStore.initialState
       [UseSocket.room_state (Samples.room Game.in_round);
        UseSocket.round_start Samples.roundStart1]).
Proof.
  destruct (current_round_hides_emotion GameStore.initialState GameStore.initialState
              [UseSocket.room_state (Samples.room Game.in_round);
               UseSocket.round_start Samples.roundStart1])
    as [Hinit Hrun].
  exact (Hrun Hinit).
Defined.

Lemma connection_flag_changes_only_by_witness :
  exists message,
    UseSocket.left_room "bye" = UseSocket.left_room message /\
    GameStore.isConnected
      (UseSocket.handle GameStore.initialState
         (GameStore.setConnected true GameStore.initialState) (UseSocket.left_room "bye"))
    = false.
Proof.
  destruct (connection_flag_changes_only_by GameStore.initialState
              (GameStore.setConnected true GameStore.initialState) (UseSocket.left_room "bye"))
    as [[Habs _] | [[Habs _] | Hleft]]; try discriminate.
  exact Hleft.
Defined.

Lemma last_result_changes_only_by_witness :
  exists data,
    UseSocket.round_start Samples.roundStart2 = UseSocket.round_start data /\
    GameStore.lastResult
      (UseSocket.handle GameStore.initialState
         (UseSocket.mounted Samples.playing [UseSocket.round_result Samples.result1])
         (UseSocket.round_start Samples.roundStart2))
    = None.
Proof.
  destruct (last_result_changes_only_by GameStore.initialState
              (UseSocket.mounted Samples.playing [UseSocket.round_result Samples.result1])
              (UseSocket.round_start Samples.roundStart2))
    as [(d & Habs & _) | [Hstart | (m & Habs & _)]]; try discriminate.
  exact Hstart.
Defined.

Lemma audio_url_changes_only_by_witness :
  exists data url,
    UseSocket.audio_received Samples.audio1 (Some "blob:emoguchi/1") =
      UseSocket.audio_received data (Some url) /\
    GameStore.audioUrl
      (UseSocket.handle GameStore.initialState Samples.playing
         (UseSocket.audio_received Samples.audio1 (Some "blob:emoguchi/1")))
    = Some url.
Proof.
  destruct (audio_url_changes_only_by GameStore.initialState Samples.playing
              (UseSocket.audio_received Samples.audio1 (Some "blob:emoguchi/1")))
    as [Haudio | [(d & Habs & _) | [(d & Habs & _) | (m & Habs & _)]]]; try discriminate.
  exact Haudio.
Defined.

Lemma speaker_emotion_changes_only_by_witness :
  GameStore.speakerEmotion
    (UseSocket.handle GameStore.initialState Samples.playing
       (UseSocket.speaker_emotion
          {| UseSocket.se_roundId := "round-1"; UseSocket.se_emotion := Some "";
             UseSocket.se_emotionId := Some "joy"; UseSocket.se_emotionName := None |}))
  = Some "joy".
Proof.
  destruct (speaker_emotion_changes_only_by GameStore.initialState Samples.playing
              (UseSocket.speaker_emotion
                 {| UseSocket.se_roundId := "round-1"; UseSocket.se_emotion := Some "";
                    UseSocket.se_emotionId := Some "joy"; UseSocket.se_emotionName := None |}))
    as [(d & [= <-] & Hset) | [(d & Habs & _) | (m & Habs & _)]]; try discriminate.
  exact Hset.
Defined.

Lemma game_complete_changes_only_by_witness :
  exists data,
    UseSocket.room_state (Samples.room Game.waiting) = UseSocket.room_state data /\
    Game.phase data = Game.waiting /\
    GameStore.gameComplete
      (UseSocket.handle GameStore.initialState
         (UseSocket.mounted GameStore.initialState
            [UseSocket.game_complete
               {| UseSocket.gc_rankings := None; UseSocket.gc_totalRounds := None;
                  UseSocket.gc_totalCycles := None; UseSocket.gc_finalScores := None |}])
         (UseSocket.room_state (Samples.room Game.waiting)))
    = None.
Proof.
  destruct (game_complete_changes_only_by GameStore.initialState
              (UseSocket.mounted GameStore.initialState
                 [UseSocket.game_complete
                    {| UseSocket.gc_rankings := None; UseSocket.gc_totalRounds := None;
                       UseSocket.gc_totalCycles := None; UseSocket.gc_finalScores := None |}])
              (UseSocket.room_state (Samples.room Game.waiting)))
    as [(d & g & Habs & _) | [Hroom | (m & Habs & _)]]; try discriminate.
  exact Hroom.
Defined.

Lemma room_state_follows_broadcasts_witness :
  GameStore.roomState
    (UseSocket.mounted GameStore.initialState
       [UseSocket.room_state (Samples.room Game.in_round);
        UseSocket.round_start Samples.roundStart1;
        UseSocket.round_result Samples.result1])
  = Some (Samples.room Game.in_round).
Proof.
  destruct (room_state_follows_broadcasts GameStore.initialState GameStore.initialState
              [UseSocket.room_state (Samples.room Game.in_round);
               UseSocket.round_start Samples.roundStart1;
               UseSocket.round_result Samples.result1]) as [Hfollow _].
  exact (Hfollow eq_refl).
Defined.
